(** * Fact-checking pipeline of [app.py]: a shallow embedding

    The program extracts claims from a document with a language-model
    call, searches the web for every claim and asks the language model
    for a verdict.  The embedding keeps the Python values the code
    handles (values decoded from JSON, dictionaries, strings), the
    exceptions the code raises and catches, and the calls it makes to the
    outside (user-interface notices, chat completions, web searches) as
    a trace of events. *)

From Stdlib Require Import List String Ascii ZArith QArith Bool Lia.
From Stdlib Require Import Floats.SpecFloat.
From Stdlib Require Import DecimalString.
Import ListNotations.

Open Scope Z_scope.
Open Scope string_scope.

(** ** Python values

    The values that reach the code are decoded from JSON or built by the
    code itself: [None], booleans, integers, floats, strings, lists and
    dictionaries with string keys.  A finite float is kept as the
    rational it denotes. *)

#[local] Set Warnings "-register-all".

Inductive value : Type :=
| VNone
| VBool (b : bool)
| VInt (n : Z)
| VFloat (q : Q)
| VStr (s : string)
| VList (l : list value)
| VDict (d : list (string * value)).

(** A dictionary is the list of its items; a key is bound at most once
    and [dict_get] reads the binding. *)
Definition dict := list (string * value).

Fixpoint dict_get (k : string) (d : dict) : option value :=
  match d with
  | [] => None
  | (k', v) :: d' => if String.eqb k k' then Some v else dict_get k d'
  end.

Definition dict_get_default (k : string) (default : value) (d : dict) : value :=
  match dict_get k d with
  | Some v => v
  | None => default
  end.

(** [bool(v)]: the truth value Python gives to [v] in [if v] and [if not v]. *)
Definition truthy (v : value) : bool :=
  match v with
  | VNone => false
  | VBool b => b
  | VInt n => negb (Z.eqb n 0)
  | VFloat q => negb (Qeq_bool q 0)
  | VStr s => negb (String.eqb s "")
  | VList l => match l with [] => false | _ => true end
  | VDict d => match d with [] => false | _ => true end
  end.

(** [type(v).__name__], as it appears in the messages of exceptions. *)
Definition type_name (v : value) : string :=
  match v with
  | VNone => "NoneType"
  | VBool _ => "bool"
  | VInt _ => "int"
  | VFloat _ => "float"
  | VStr _ => "str"
  | VList _ => "list"
  | VDict _ => "dict"
  end.

(** ** Exceptions

    What Python operations and library calls raise are subclasses of
    [Exception].  [JSONDecodeError] has a handler of its own in the code;
    every other one is caught by [except Exception]. *)

Inductive exception : Type :=
| JSONDecodeError (msg : string)
| PyException (cls msg : string).

(** [str(e)] *)
Definition exn_str (e : exception) : string :=
  match e with
  | JSONDecodeError msg => msg
  | PyException _ msg => msg
  end.

(** Streamlit's [st.stop()] and [st.rerun()] end the run of the script
    with exceptions that derive from [BaseException]: no [except
    Exception] catches them. *)
Inductive exn : Type :=
| Exception (e : exception)
| StopException
| RerunException.

(** The outcome of an operation that returns or raises an [Exception]. *)
Definition result (A : Type) : Type := (exception + A)%type.

Definition AttributeError (v : value) (attr : string) : exception :=
  PyException "AttributeError"
    ("'" ++ type_name v ++ "' object has no attribute '" ++ attr ++ "'").

Definition not_subscriptable (v : value) : exception :=
  PyException "TypeError" ("'" ++ type_name v ++ "' object is not subscriptable").

(** Sequencing of operations that may raise. *)
Definition rbind {A B} (r : result A) (k : A -> result B) : result B :=
  match r with
  | inl e => inl e
  | inr a => k a
  end.

Declare Scope py_scope.
Delimit Scope py_scope with py.
Declare Scope res_scope.
Delimit Scope res_scope with res.
Reserved Notation "x <- m ;; k" (at level 61, m at next level, right associativity).
Reserved Notation "m ;; k" (at level 61, right associativity).
Notation "x <- m ;; k" := (rbind m (fun x => k)) : res_scope.
Notation "m ;; k" := (rbind m (fun _ => k)) : res_scope.

(** ** Strings and slices *)

(** A Python string is a sequence of characters (code points).  It is
    kept here as the bytes of its UTF-8 encoding, so that the texts of the
    source are written as they stand; lengths, slices and iteration count
    characters, not bytes: a byte [10xxxxxx] continues the character
    before it, every other byte starts one. *)
Definition continues (c : ascii) : bool :=
  match c with
  | Ascii _ _ _ _ _ _ b6 b7 => b7 && negb b6
  end.

Fixpoint str_length (s : string) : nat :=
  match s with
  | EmptyString => O
  | String c s' => if continues c then str_length s' else S (str_length s')
  end.

(** [len(s)] *)
Definition py_len (s : string) : Z := Z.of_nat (str_length s).

(** The first [n] characters of [s]. *)
Fixpoint str_take (n : nat) (s : string) : string :=
  match s with
  | EmptyString => ""
  | String c s' =>
      if continues c then String c (str_take n s')
      else match n with
           | O => ""
           | S n' => String c (str_take n' s')
           end
  end.

(** [s[:n]] for a string and [n >= 0]. *)
Definition str_slice_to (n : Z) (s : string) : string := str_take (Z.to_nat n) s.

(** [o.get(k, default)]: only dictionaries have the method. *)
Definition py_get (o : value) (k : string) (default : value) : result value :=
  match o with
  | VDict d => inr (dict_get_default k default d)
  | _ => inl (AttributeError o "get")
  end.

(** [o[k]] for a string key: the code only subscripts dictionaries so. *)
Definition py_getitem (o : value) (k : string) : result value :=
  match o with
  | VDict d =>
      match dict_get k d with
      | Some v => inr v
      | None => inl (PyException "KeyError" ("'" ++ k ++ "'"))
      end
  | VStr _ => inl (PyException "TypeError" "string indices must be integers")
  | VList _ => inl (PyException "TypeError" "list indices must be integers or slices, not str")
  | _ => inl (not_subscriptable o)
  end.

(** [o[:n]] for [n >= 0]: strings and lists have slices; a dictionary
    takes the slice for a key and fails; nothing else is subscriptable. *)
Definition py_slice_to (o : value) (n : Z) : result value :=
  match o with
  | VStr s => inr (VStr (str_slice_to n s))
  | VList l => inr (VList (firstn (Z.to_nat n) l))
  | VDict _ => inl (PyException "TypeError" "unhashable type: 'slice'")
  | _ => inl (not_subscriptable o)
  end.

(** The characters of a string, each with the bytes that continue it:
    [current] holds the bytes of the character being read. *)
Fixpoint split_chars (current : string) (s : string) : list string :=
  match s with
  | EmptyString => if String.eqb current "" then [] else [current]
  | String c s' =>
      if continues c then split_chars (current ++ String c "") s'
      else ((if String.eqb current "" then [] else [current])
            ++ split_chars (String c "") s')%list
  end.

Definition str_chars (s : string) : list value := map VStr (split_chars "" s).

(** The items a [for] loop or a comprehension draws from [o]. *)
Definition py_iter (o : value) : result (list value) :=
  match o with
  | VList l => inr l
  | VStr s => inr (str_chars s)
  | VDict d => inr (map (fun kv => VStr (fst kv)) d)
  | _ => inl (PyException "TypeError" ("'" ++ type_name o ++ "' object is not iterable"))
  end.

(** Decimal digits of an integer, as [str(n)] and f-strings print it. *)
Definition str_of_Z (n : Z) : string := NilZero.string_of_int (Z.to_int n).

(** The double-quote character, for the texts that contain it. *)
Definition dq : string := String (ascii_of_nat 34) "".
Definition nl : string := String (ascii_of_nat 10) "".

(** ** The outside world: requests and events *)

(** The arguments of [openai_client.chat.completions.create]. *)
Record chat_request : Type := {
  model : string;
  messages : list (string * string);   (* role, content *)
  temperature : Q;
  response_format : string             (* the "type" entry *)
}.

(** The arguments of [tavily_client.search]. *)
Record search_request : Type := {
  query : string;
  search_depth : string;
  max_results : Z
}.

(** What a run does that is visible from outside, in the order it does it. *)
Inductive event : Type :=
| StInfo (msg : string)
| StError (msg : string)
| StWarning (msg : string)
| StSuccess (msg : string)
| StHeader (msg : string)
| StMarkdown (msg : string)
| StCaption (msg : string)
| StStatusText (msg : string)
| StProgress (done total : Z)           (* the bar at done/total *)
| StMetric (label : string) (count : Z) (delta : option string)
| ChatCreate (req : chat_request)
| TavilySearch (req : search_request).

Definition is_chat (e : event) : bool :=
  match e with ChatCreate _ => true | _ => false end.

Definition is_search (e : event) : bool :=
  match e with TavilySearch _ => true | _ => false end.


(** What the code takes from Python and its libraries without defining it. *)
Class Runtime : Type := {
  (** The state of the services behind the two clients.  A call answers
      from the state and moves it, so the same request may be answered
      differently the next time. *)
  World : Type;
  (** [json.loads] on a string: the decoded value, or the message of the
      [JSONDecodeError] it raises. *)
  json_loads : string -> string + value;
  (** [str(v)] for a value that is not a string, as an f-string prints it. *)
  py_repr : value -> string;
  (** [s.title()] *)
  str_title : string -> string
}.

Section Pipeline.

Context {RT : Runtime}.

(** The chat client: [create(...)] followed by
    [.choices[0].message.content] gives the content of the reply, which
    may be [None], or raises. *)
Record OpenAI : Type := {
  chat_completions_create : chat_request -> World -> result (option string) * World
}.

(** The search client: [search(...)] gives the decoded reply or raises. *)
Record TavilyClient : Type := {
  search : search_request -> World -> result value * World
}.

(** [verification_results] is the entry of [st.session_state] under the
    key of that name, [None] while the key is absent. *)
Record state : Type := {
  world : World;
  trace : list event;
  verification_results : option (list value)
}.

(** A computation runs from a state to a returned value or a raised
    exception, and a state: what was done before a [raise] stays done. *)
Definition M (A : Type) : Type := state -> (exn + A) * state.

Definition ret {A} (a : A) : M A := fun s => (inr a, s).

Definition raise {A} (e : exn) : M A := fun s => (inl e, s).

Definition bind {A B} (m : M A) (k : A -> M B) : M B :=
  fun s =>
    match m s with
    | (inr a, s') => k a s'
    | (inl e, s') => (inl e, s')
    end.

Definition throw {A} (e : exception) : M A := raise (Exception e).

Definition lift {A} (r : result A) : M A :=
  match r with
  | inl e => throw e
  | inr a => ret a
  end.

(** [try: body except ... except Exception as e: handler]: every [try]
    of the program ends with [except Exception], so [handler] sees every
    [Exception] raised in [body] and chooses the clause; what [handler]
    raises is raised. *)
Definition try_except {A} (body : M A) (handler : exception -> M A) : M A :=
  fun s =>
    match body s with
    | (inl (Exception e), s') => handler e s'
    | r => r
    end.

Definition record_event (e : event) (s : state) : state :=
  {| world := world s;
     trace := (trace s ++ [e])%list;
     verification_results := verification_results s |}.

Definition set_world (w : World) (s : state) : state :=
  {| world := w;
     trace := trace s;
     verification_results := verification_results s |}.

Definition emit (e : event) : M unit :=
  fun s => (inr tt, record_event e s).

(** A call is recorded when it is made; its answer moves the world. *)
Definition call_chat (client : OpenAI) (req : chat_request) : M (option string) :=
  fun s =>
    let (r, w) := chat_completions_create client req (world s) in
    lift r (set_world w (record_event (ChatCreate req) s)).

Definition call_search (client : TavilyClient) (req : search_request) : M value :=
  fun s =>
    let (r, w) := search client req (world s) in
    lift r (set_world w (record_event (TavilySearch req) s)).

Definition store_results (results : list value) : M unit :=
  fun s => (inr tt, {| world := world s;
                       trace := trace s;
                       verification_results := Some results |}).

Definition load_results : M (option (list value)) :=
  fun s => (inr (verification_results s), s).

Notation "x <- m ;; k" := (bind m (fun x => k)) : py_scope.
Notation "m ;; k" := (bind m (fun _ => k)) : py_scope.
Local Open Scope py_scope.

(** [json.loads(content)]: [None] is not a string. *)
Definition json_loads_content (content : option string) : result value :=
  match content with
  | None =>
      inl (PyException "TypeError"
             "the JSON object must be str, bytes or bytearray, not NoneType")
  | Some s =>
      match json_loads s with
      | inl msg => inl (JSONDecodeError msg)
      | inr v => inr v
      end
  end.

(** [f"{v}"] *)
Definition format_value (v : value) : string :=
  match v with
  | VStr s => s
  | _ => py_repr v
  end.

(** ** [extract_claims] *)

Definition max_text_length : Z := 8000.

Definition truncation_notice : string :=
  "⚠️ Document is large. Analyzing first " ++ str_of_Z max_text_length
  ++ " characters. Consider splitting large documents.".

Definition extraction_prompt (text_to_analyze : string) : string :=
  "Analyze the following text and extract all verifiable claims. Focus on:
- Statistics and numerical data
- Dates and historical events
- Financial figures (prices, GDP, market values, etc.)
- Technical specifications
- Scientific facts
- Demographic data
- Any factual statements that can be verified

For each claim, extract:
1. The exact claim text
2. The type of claim (statistic, date, financial, technical, scientific, demographic, or other)
3. The key entities involved

Return the results as a JSON object with a " ++ dq ++ "claims" ++ dq ++ " array. Structure:
{
  " ++ dq ++ "claims" ++ dq ++ ": [
    {
      " ++ dq ++ "claim" ++ dq ++ ": " ++ dq ++ "exact claim text from document" ++ dq ++ ",
      " ++ dq ++ "type" ++ dq ++ ": " ++ dq ++ "statistic|date|financial|technical|scientific|demographic|other" ++ dq ++ ",
      " ++ dq ++ "entities" ++ dq ++ ": [" ++ dq ++ "entity1" ++ dq ++ ", " ++ dq ++ "entity2" ++ dq ++ "]
    }
  ]
}

Text to analyze:
" ++ text_to_analyze ++ "

Return ONLY valid JSON, no additional text.".

Definition extraction_request (text_to_analyze : string) : chat_request :=
  {| model := "gpt-4o-mini";
     messages :=
       [("system", "You are a fact-checking assistant. Extract verifiable claims from text and return them as JSON with a 'claims' array.");
        ("user", extraction_prompt text_to_analyze)];
     temperature := 3 # 10;
     response_format := "json_object" |}.

(** Lines 100-108: the claims array of the decoded reply. *)
Definition claims_of_result (result : value) : list value :=
  let claims :=
    match result with
    | VDict d =>
        match dict_get "claims" d with
        | Some c => c
        | None => VList []
        end
    | VList _ => result
    | _ => VList []
    end in
  match claims with
  | VList l => l
  | _ => []
  end.

Definition extract_claims (text : string) (openai_client : OpenAI) : M (list value) :=
  try_except
    (text_to_analyze <-
       (if py_len text >? max_text_length
        then emit (StInfo truncation_notice) ;;
             ret (str_slice_to max_text_length text)
        else ret text) ;;
     content <- call_chat openai_client (extraction_request text_to_analyze) ;;
     result <- lift (json_loads_content content) ;;
     ret (claims_of_result result))
    (fun e =>
       match e with
       | JSONDecodeError _ =>
           emit (StError ("Error parsing JSON response: " ++ exn_str e)) ;;
           ret []
       | _ =>
           emit (StError ("Error extracting claims: " ++ exn_str e)) ;;
           ret []
       end).

(** ** [search_web_for_claim] *)

Definition search_web_for_claim (claim claim_type : value) (tavily_client : TavilyClient)
  : M value :=
  try_except
    (let search_query := format_value claim in
     response <- call_search tavily_client
                   {| query := search_query;
                      search_depth := "advanced";
                      max_results := 5 |} ;;
     results <- lift (py_get response "results" (VList [])) ;;
     ret (VDict [("results", results); ("query", VStr search_query)]))
    (fun e =>
       emit (StError ("Error searching web: " ++ exn_str e)) ;;
       ret (VDict [("results", VList []); ("query", claim)])).

(** ** [verify_claim] *)

(** Lines 147-151: one block of the context for each of the items, numbered from [i]. *)
Fixpoint search_context_loop (i : Z) (items : list value) (search_context : string)
  : result string :=
  match items with
  | [] => inr search_context
  | result :: rest =>
      (title <- py_get result "title" (VStr "N/A") ;;
       full_content <- py_get result "content" (VStr "N/A") ;;
       content <- py_slice_to full_content 500 ;;
       url <- py_get result "url" (VStr "N/A") ;;
       search_context_loop (i + 1) rest
         (search_context ++ nl ++ "Source " ++ str_of_Z i ++ ":" ++ nl
          ++ "Title: " ++ format_value title ++ nl
          ++ "Content: " ++ format_value content ++ nl
          ++ "URL: " ++ format_value url ++ nl))%res
  end.

(** Lines 145-151. *)
Definition build_search_context (search_results : value) : result string :=
  (results <- py_get search_results "results" VNone ;;
   if truthy results
   then all_results <- py_getitem search_results "results" ;;
        first3 <- py_slice_to all_results 3 ;;
        items <- py_iter first3 ;;
        search_context_loop 1 items ""
   else inr "")%res.

Definition verification_prompt (claim_text claim_type : value) (search_context : string)
  : string :=
  "You are a fact-checker. Verify the following claim against the provided web search results.

Claim to verify:
" ++ dq ++ format_value claim_text ++ dq ++ "

Claim Type: " ++ format_value claim_type ++ "

Web Search Results:
" ++ (if String.eqb search_context "" then "No search results found." else search_context) ++ "

Based on the search results, determine:
1. Is the claim VERIFIED (matches current data), INACCURATE (outdated or partially wrong), or FALSE (no evidence or contradicts evidence)?
2. What is the correct/current information if the claim is inaccurate or false?
3. Provide a brief explanation.

Return your response as JSON with this structure:
{
  " ++ dq ++ "status" ++ dq ++ ": " ++ dq ++ "VERIFIED|INACCURATE|FALSE" ++ dq ++ ",
  " ++ dq ++ "explanation" ++ dq ++ ": " ++ dq ++ "brief explanation of your verification" ++ dq ++ ",
  " ++ dq ++ "correct_info" ++ dq ++ ": " ++ dq ++ "correct information if status is INACCURATE or FALSE, otherwise null" ++ dq ++ ",
  " ++ dq ++ "confidence" ++ dq ++ ": " ++ dq ++ "HIGH|MEDIUM|LOW" ++ dq ++ "
}

Return ONLY valid JSON, no additional text.".

Definition verification_request (claim_text claim_type : value) (search_context : string)
  : chat_request :=
  {| model := "gpt-4o-mini";
     messages :=
       [("system", "You are a professional fact-checker. Analyze claims against evidence and provide accurate verification.");
        ("user", verification_prompt claim_text claim_type search_context)];
     temperature := 2 # 10;
     response_format := "json_object" |}.

(** Line 197: the comprehension over the items of the slice. *)
Fixpoint sources_loop (items : list value) : result (list value) :=
  match items with
  | [] => inr []
  | r :: rest =>
      (cond <- py_get r "url" VNone ;;
       if truthy cond
       then url <- py_get r "url" (VStr "") ;;
            urls <- sources_loop rest ;;
            inr (url :: urls)
       else sources_loop rest)%res
  end.

Definition collect_sources (search_results : value) : result (list value) :=
  (results <- py_get search_results "results" (VList []) ;;
   first3 <- py_slice_to results 3 ;;
   items <- py_iter first3 ;;
   sources_loop items)%res.

(** The dictionary both [except] clauses return, after their warning. *)
Definition error_result (claim : value) (explanation : string) : result value :=
  (claim_text <- py_get claim "claim" (VStr "") ;;
   claim_type <- py_get claim "type" (VStr "other") ;;
   inr (VDict [("claim", claim_text);
               ("type", claim_type);
               ("status", VStr "ERROR");
               ("explanation", VStr explanation);
               ("correct_info", VNone);
               ("confidence", VStr "LOW");
               ("sources", VList [])]))%res.

(** [claim.get('claim', '')[:50]] inside the warnings. *)
Definition claim_preview (claim : value) (n : Z) (default : value) : result string :=
  (text <- py_get claim "claim" default ;;
   short <- py_slice_to text n ;;
   inr (format_value short))%res.

(** Lines 200-221: the two [except] clauses. *)
Definition verification_failed (claim : value) (e : exception) : M value :=
  match e with
  | JSONDecodeError _ =>
      short <- lift (claim_preview claim 50 (VStr "")) ;;
      emit (StWarning ("Error parsing verification response for claim: "
                       ++ short ++ "...")) ;;
      lift (error_result claim ("Error parsing verification response: " ++ exn_str e))
  | _ =>
      short <- lift (claim_preview claim 50 (VStr "")) ;;
      emit (StWarning ("Error verifying claim: " ++ short ++ "... - " ++ exn_str e)) ;;
      lift (error_result claim ("Error during verification: " ++ exn_str e))
  end.

Definition verify_claim (claim search_results : value) (openai_client : OpenAI)
  : M value :=
  try_except
    (claim_text <- lift (py_get claim "claim" (VStr "")) ;;
     claim_type <- lift (py_get claim "type" (VStr "other")) ;;
     search_context <- lift (build_search_context search_results) ;;
     content <- call_chat openai_client
                  (verification_request claim_text claim_type search_context) ;;
     verification <- lift (json_loads_content content) ;;
     status <- lift (py_get verification "status" (VStr "UNKNOWN")) ;;
     explanation <- lift (py_get verification "explanation" (VStr "")) ;;
     correct_info <- lift (py_get verification "correct_info" VNone) ;;
     confidence <- lift (py_get verification "confidence" (VStr "MEDIUM")) ;;
     sources <- lift (collect_sources search_results) ;;
     ret (VDict [("claim", claim_text);
                 ("type", claim_type);
                 ("status", status);
                 ("explanation", explanation);
                 ("correct_info", correct_info);
                 ("confidence", confidence);
                 ("sources", VList sources)]))
    (verification_failed claim).

(** ** The verification loop of [main] (lines 301-317) *)

Fixpoint verify_loop (idx total_claims : Z) (claims : list value)
    (openai_client : OpenAI) (tavily_client : TavilyClient) (results : list value)
  : M (list value) :=
  match claims with
  | [] => ret results
  | claim :: rest =>
      emit (StStatusText ("Verifying claim " ++ str_of_Z (idx + 1) ++ " of "
                          ++ str_of_Z total_claims ++ "...")) ;;
      emit (StProgress idx total_claims) ;;
      claim_text <- lift (py_get claim "claim" (VStr "")) ;;
      claim_type <- lift (py_get claim "type" (VStr "other")) ;;
      search_results <- search_web_for_claim claim_text claim_type tavily_client ;;
      verification <- verify_claim claim search_results openai_client ;;
      verify_loop (idx + 1) total_claims rest openai_client tavily_client
        (results ++ [verification])%list
  end.

Definition verify_all (claims : list value)
    (openai_client : OpenAI) (tavily_client : TavilyClient) : M (list value) :=
  verify_loop 0 (Z.of_nat (List.length claims)) claims openai_client tavily_client [].

(** ** The summary of [main] (lines 336-352) *)

(** Lists and dictionaries cannot be keys of a dictionary. *)
Definition hashable (v : value) : bool :=
  match v with
  | VList _ | VDict _ => false
  | _ => true
  end.

Definition unhashable (v : value) : exception :=
  PyException "TypeError" ("unhashable type: '" ++ type_name v ++ "'").

Definition numeric (v : value) : option Q :=
  match v with
  | VBool b => Some (if b then 1%Q else 0%Q)
  | VInt n => Some (inject_Z n)
  | VFloat q => Some q
  | _ => None
  end.

(** When two hashable values are the same key: numbers by their value
    ([True], [1] and [1.0] are one key), strings by their characters. *)
Definition key_eqb (a b : value) : bool :=
  match a, b with
  | VNone, VNone => true
  | VStr s, VStr t => String.eqb s t
  | _, _ =>
      match numeric a, numeric b with
      | Some x, Some y => Qeq_bool x y
      | _, _ => false
      end
  end.

(** [status_counts]: a dictionary from statuses to counts. *)
Definition counts := list (value * Z).

Fixpoint counts_get (k : value) (default : Z) (c : counts) : Z :=
  match c with
  | [] => default
  | (k', n) :: c' => if key_eqb k k' then n else counts_get k default c'
  end.

Fixpoint counts_set (k : value) (n : Z) (c : counts) : counts :=
  match c with
  | [] => [(k, n)]
  | (k', n') :: c' =>
      if key_eqb k k' then (k', n) :: c' else (k', n') :: counts_set k n c'
  end.

(** Lines 337-339. *)
Fixpoint count_statuses (results : list value) (status_counts : counts) : result counts :=
  match results with
  | [] => inr status_counts
  | result :: rest =>
      (status <- py_get result "status" (VStr "UNKNOWN") ;;
       if hashable status
       then count_statuses rest
              (counts_set status (counts_get status 0 status_counts + 1) status_counts)
       else inl (unhashable status))%res
  end.

(** Python's floats are IEEE 754 binary64 numbers: 53 bits of precision,
    rounding to nearest, ties to even. *)
Definition float : Type := spec_float.

(** [float(n)], exact for the integers of up to 53 bits. *)
Definition float_of_int (n : Z) : float := binary_normalize 53 1024 n 0 false.

(** An integer as the operand of a division: the number itself, as
    mantissa with exponent 0. *)
Definition int_operand (n : Z) : float :=
  match n with
  | Z0 => S754_zero false
  | Zpos p => S754_finite false p 0
  | Zneg p => S754_finite true p 0
  end.

(** [a / b] on integers: the float nearest to the exact quotient. *)
Definition int_truediv (a b : Z) : result float :=
  if Z.eqb b 0
  then inl (PyException "ZeroDivisionError" "division by zero")
  else inr (SFdiv 53 1024 (int_operand a) (int_operand b)).

(** [x * n] for a float [x] and an integer [n]. *)
Definition float_mul_int (x : float) (n : Z) : float :=
  SFmul 53 1024 x (float_of_int n).

(** [num / den] rounded to the nearest integer, ties to even, for
    [den > 0]. *)
Definition round_half_even (num den : Z) : Z :=
  let q := num / den in
  let r := num mod den in
  match 2 * r ?= den with
  | Lt => q
  | Gt => q + 1
  | Eq => if Z.even q then q else q + 1
  end.

(** The number of tenths nearest to [m * 2^e]. *)
Definition tenths (m : positive) (e : Z) : Z :=
  match e with
  | Zneg p => round_half_even (10 * Zpos m) (2 ^ Zpos p)
  | _ => 10 * Zpos m * 2 ^ e
  end.

(** [f"{x:.1f}"]: the decimal with one digit after the point that is
    nearest to [x]. *)
Definition format_1f (x : float) : string :=
  match x with
  | S754_nan => "nan"
  | S754_infinity sign => (if sign then "-" else "") ++ "inf"
  | S754_zero sign => (if sign then "-" else "") ++ "0.0"
  | S754_finite sign m e =>
      let t := tenths m e in
      (if sign then "-" else "") ++ str_of_Z (t / 10) ++ "." ++ str_of_Z (t mod 10)
  end.

(** [count / total * 100]. *)
Definition percent_of (count total : Z) : result float :=
  (ratio <- int_truediv count total ;;
   inr (float_mul_int ratio 100))%res.

Definition status_metric (label key : string) (status_counts : counts) (total : Z)
  : M unit :=
  let n := counts_get (VStr key) 0 status_counts in
  delta <- lift (percent_of n total) ;;
  emit (StMetric label n (Some (format_1f delta ++ "%"))).

Definition show_summary (results : list value) : M unit :=
  status_counts <- lift (count_statuses results []) ;;
  let total := Z.of_nat (List.length results) in
  emit (StMetric "Total Claims" total None) ;;
  status_metric "✅ Verified" "VERIFIED" status_counts total ;;
  status_metric "⚠️ Inaccurate" "INACCURATE" status_counts total ;;
  status_metric "❌ False" "FALSE" status_counts total.

(** ** The cards of the detailed results (lines 357-385) *)

(** [table.get(key, default)] for a table with string keys. *)
Definition table_get (table : list (string * string)) (key : value) (default : string)
  : result string :=
  if hashable key
  then inr (match key with
            | VStr k => match find (fun kv => String.eqb k (fst kv)) table with
                        | Some kv => snd kv
                        | None => default
                        end
            | _ => default
            end)
  else inl (unhashable key).

Definition get_status_color (status : value) : result string :=
  table_get [("VERIFIED", "#28a745"); ("INACCURATE", "#ffc107"); ("FALSE", "#dc3545");
             ("ERROR", "#6c757d"); ("UNKNOWN", "#6c757d")] status "#6c757d".

Definition get_status_emoji (status : value) : result string :=
  table_get [("VERIFIED", "✅"); ("INACCURATE", "⚠️"); ("FALSE", "❌");
             ("ERROR", "⚠️"); ("UNKNOWN", "❓")] status "❓".

(** [v.title()]: a method of strings only. *)
Definition py_title (v : value) : result string :=
  match v with
  | VStr s => inr (str_title s)
  | _ => inl (AttributeError v "title")
  end.

Fixpoint sources_lines (sources : list value) : M unit :=
  match sources with
  | [] => ret tt
  | source_url :: rest =>
      (if truthy source_url
       then emit (StMarkdown ("- [" ++ format_value source_url ++ "]("
                              ++ format_value source_url ++ ")"))
       else ret tt) ;;
      sources_lines rest
  end.

Definition show_result (idx : Z) (result : value) : M unit :=
  status <- lift (py_get result "status" (VStr "UNKNOWN")) ;;
  status_emoji <- lift (get_status_emoji status) ;;
  status_color <- lift (get_status_color status) ;;
  emit (StMarkdown ("#### " ++ status_emoji ++ " Claim " ++ str_of_Z idx ++ ": "
                    ++ format_value status)) ;;
  claim_text <- lift (py_get result "claim" (VStr "N/A")) ;;
  emit (StMarkdown ("**Claim:** " ++ format_value claim_text)) ;;
  claim_type <- lift (py_get result "type" (VStr "unknown")) ;;
  titled <- lift (py_title claim_type) ;;
  emit (StMarkdown ("**Type:** " ++ titled)) ;;
  confidence <- lift (py_get result "confidence" (VStr "MEDIUM")) ;;
  emit (StMarkdown ("**Confidence:** " ++ format_value confidence)) ;;
  explanation <- lift (py_get result "explanation" (VStr "No explanation provided.")) ;;
  emit (StMarkdown ("**Explanation:** " ++ format_value explanation)) ;;
  correct_info <- lift (py_get result "correct_info" VNone) ;;
  (if truthy correct_info
   then emit (StInfo ("**Correct Information:** " ++ format_value correct_info))
   else ret tt) ;;
  sources <- lift (py_get result "sources" (VList [])) ;;
  (if truthy sources
   then emit (StMarkdown "**Sources:**") ;;
        items <- lift (py_iter sources) ;;
        sources_lines items
   else ret tt) ;;
  emit (StMarkdown "---").

Fixpoint show_results (idx : Z) (results : list value) : M unit :=
  match results with
  | [] => ret tt
  | result :: rest => show_result idx result ;; show_results (idx + 1) rest
  end.

(** ** [extract_text_from_pdf] *)

(** What [pdfplumber] makes of an uploaded file: opening it raises or
    gives the pages, and [extract_text()] on a page raises or gives a
    text or [None]. *)
Definition pdf_file : Type := result (list (result (option string))).

Fixpoint pages_loop (pages : list (result (option string))) (text : string)
  : result string :=
  match pages with
  | [] => inr text
  | page :: rest =>
      (page_text <- page ;;
       match page_text with
       | Some t => if String.eqb t "" then pages_loop rest text
                   else pages_loop rest (text ++ t ++ nl)
       | None => pages_loop rest text
       end)%res
  end.

Definition extract_text_from_pdf (pdf : pdf_file) : M string :=
  try_except
    (pages <- lift pdf ;;
     lift (pages_loop pages ""))
    (fun e =>
       emit (StError ("Error extracting text from PDF: " ++ exn_str e)) ;;
       ret "").

(** ** [init_clients] and [main] *)

(** The process environment and the constructors of the two clients.
    [init_clients] is cached (line 13): its body runs once in a process,
    and the environment it reads is the one of that first call. *)
Record environment : Type := {
  OPENAI_API_KEY : option string;
  TAVILY_API_KEY : option string;
  new_OpenAI : string -> OpenAI;
  new_TavilyClient : string -> TavilyClient
}.

Definition init_clients (env : environment)
  : M (option OpenAI * option TavilyClient) :=
  match OPENAI_API_KEY env with
  | None | Some "" =>
      emit (StError "OPENAI_API_KEY not found in environment variables") ;;
      ret (None, None)
  | Some openai_key =>
      match TAVILY_API_KEY env with
      | None | Some "" =>
          emit (StError "TAVILY_API_KEY not found in environment variables") ;;
          ret (None, None)
      | Some tavily_key =>
          ret (Some (new_OpenAI env openai_key), Some (new_TavilyClient env tavily_key))
      end
  end.

(** What the page hands to one run of the script: the uploaded file, if
    any, and whether the button was pressed. *)
Record page_input : Type := {
  uploaded_file : option pdf_file;
  verify_button : bool
}.

(** Lines 291-294. *)
Fixpoint claims_preview (i : Z) (claims : list value) : M unit :=
  match claims with
  | [] => ret tt
  | claim :: rest =>
      short <- lift (claim_preview claim 100 (VStr "N/A")) ;;
      emit (StMarkdown ("**" ++ str_of_Z i ++ ". " ++ short ++ "...**")) ;;
      claim_type <- lift (py_get claim "type" (VStr "unknown")) ;;
      emit (StCaption ("Type: " ++ format_value claim_type)) ;;
      claims_preview (i + 1) rest
  end.

(** One run of the script.  [st.stop()] and [st.rerun()] end it by
    raising; the static header of the page is not traced.  [env] is the
    environment [init_clients] ran in: the cache of the function keeps
    the clients and the notice of its first call in the process, and
    every run of the script has those. *)
Definition main (env : environment) (page : page_input) : M unit :=
  clients <- init_clients env ;;
  match clients with
  | (Some openai_client, Some tavily_client) =>
      match uploaded_file page with
      | None => ret tt
      | Some pdf =>
          pdf_text <- extract_text_from_pdf pdf ;;
          if String.eqb pdf_text ""
          then emit (StError "Could not extract text from PDF. Please ensure the PDF contains readable text.") ;;
               raise StopException
          else
            emit (StSuccess ("✅ Extracted " ++ str_of_Z (py_len pdf_text)
                             ++ " characters from PDF")) ;;
            claims <- extract_claims pdf_text openai_client ;;
            match claims with
            | [] =>
                emit (StWarning "No verifiable claims found in the document.") ;;
                raise StopException
            | _ =>
                emit (StSuccess ("✅ Found " ++ str_of_Z (Z.of_nat (List.length claims))
                                 ++ " verifiable claims")) ;;
                claims_preview 1 claims ;;
                (if verify_button page
                 then emit (StProgress 0 1) ;;
                      results <- verify_all claims openai_client tavily_client ;;
                      emit (StProgress 1 1) ;;
                      emit (StStatusText "✅ Verification complete!") ;;
                      store_results results ;;
                      raise RerunException
                 else ret tt) ;;
                stored <- load_results ;;
                match stored with
                | Some results =>
                    emit (StMarkdown "---") ;;
                    emit (StHeader "📊 Verification Results") ;;
                    show_summary results ;;
                    emit (StMarkdown "### Detailed Results") ;;
                    show_results 1 results
                | None => ret tt
                end
            end
      end
  | _ =>
      emit (StWarning "Please set up your API keys in the .env file. See README for instructions.") ;;
      raise StopException
  end.

End Pipeline.

Notation "x <- m ;; k" := (bind m (fun x => k)) : py_scope.
Notation "m ;; k" := (bind m (fun _ => k)) : py_scope.

(** ** A scripted runtime

    A world that answers the calls from two scripts, in order, and a
    decoder that knows a handful of texts: enough to run the program on
    concrete inputs. *)

Record script : Type := {
  chat_replies : list (result (option string));
  search_replies : list (result value)
}.

Definition text_status_false : string :=
  "{" ++ dq ++ "status" ++ dq ++ ": " ++ dq ++ "FALSE" ++ dq ++ "}".

Definition text_claims_one : string :=
  "{" ++ dq ++ "claims" ++ dq ++ ": [{" ++ dq ++ "claim" ++ dq ++ ": "
  ++ dq ++ "The GDP of Country X was $5 trillion in 2020." ++ dq ++ "}]}".

Definition gdp_claim : value :=
  VDict [("claim", VStr "The GDP of Country X was $5 trillion in 2020.")].

Definition scripted_json_loads (s : string) : string + value :=
  if String.eqb s "{}" then inr (VDict [])
  else if String.eqb s "[]" then inr (VList [])
  else if String.eqb s "7" then inr (VInt 7)
  else if String.eqb s text_status_false then inr (VDict [("status", VStr "FALSE")])
  else if String.eqb s text_claims_one then inr (VDict [("claims", VList [gdp_claim])])
  else inl "Expecting value: line 1 column 1 (char 0)".

Definition scripted_repr (v : value) : string :=
  match v with
  | VNone => "None"
  | VBool true => "True"
  | VBool false => "False"
  | VInt n => str_of_Z n
  | VStr s => "'" ++ s ++ "'"
  | VList [] => "[]"
  | VDict [] => "{}"
  | _ => "..."
  end.

(** [s.title()] for a text of ASCII characters: every letter that
    follows a letter is made lower case, every other letter upper case. *)
Fixpoint title_from (after_letter : bool) (s : string) : string :=
  match s with
  | EmptyString => ""
  | String c s' =>
      let n := nat_of_ascii c in
      if ((97 <=? n) && (n <=? 122))%nat
      then String (if after_letter then c else ascii_of_nat (n - 32)) (title_from true s')
      else if ((65 <=? n) && (n <=? 90))%nat
      then String (if after_letter then ascii_of_nat (n + 32) else c) (title_from true s')
      else String c (title_from false s')
  end.

Definition scripted_title (s : string) : string := title_from false s.

Definition scripted : Runtime :=
  {| World := script;
     json_loads := scripted_json_loads;
     py_repr := scripted_repr;
     str_title := scripted_title |}.

Definition connection_error : exception :=
  PyException "APIConnectionError" "Connection error.".

Definition scripted_openai : @OpenAI scripted :=
  {| chat_completions_create := fun _ (w : @World scripted) =>
       match chat_replies w with
       | [] => (inl connection_error, w)
       | r :: rest => (r, {| chat_replies := rest; search_replies := search_replies w |})
       end |}.

Definition scripted_tavily : @TavilyClient scripted :=
  {| search := fun _ (w : @World scripted) =>
       match search_replies w with
       | [] => (inl connection_error, w)
       | r :: rest => (r, {| chat_replies := chat_replies w; search_replies := rest |})
       end |}.

Definition start (chat : list (result (option string))) (searches : list (result value))
  : @state scripted :=
  {| world := {| chat_replies := chat; search_replies := searches |} : @World scripted;
     trace := [];
     verification_results := None |}.

(** ** Well-formed inputs *)

(** Values that have slices [v[:n]]. *)
Definition sliceable (v : value) : bool :=
  match v with
  | VStr _ | VList _ => true
  | _ => false
  end.

(** A claim as the preview of [main] (lines 291-294) lets it through: a
    dictionary whose ["claim"] entry, when present, has slices. *)
Definition claim_ok (claim : value) : bool :=
  match claim with
  | VDict d => sliceable (dict_get_default "claim" (VStr "") d)
  | _ => false
  end.

(** An evidence snippet: a dictionary whose ["content"], when present, has slices. *)
Definition snippet_ok (r : value) : bool :=
  match r with
  | VDict d => sliceable (dict_get_default "content" (VStr "N/A") d)
  | _ => false
  end.

(** The output of the evidence retriever: a dictionary whose
    ["results"], when present, is a list with snippets in its first
    three places. *)
Definition evidence_ok (search_results : value) : bool :=
  match search_results with
  | VDict d =>
      match dict_get "results" d with
      | None => true
      | Some (VList l) => forallb snippet_ok (firstn 3 l)
      | Some _ => false
      end
  | _ => false
  end.

Definition is_dict (v : value) : bool :=
  match v with
  | VDict _ => true
  | _ => false
  end.


(** The text the extraction prompt embeds (lines 52-56). *)
Definition analyzed_text (text : string) : string :=
  if py_len text >? max_text_length
  then str_slice_to max_text_length text
  else text.

(** The notice [extract_claims] shows for an exception it caught. *)
Definition extraction_error (e : exception) : event :=
  match e with
  | JSONDecodeError _ => StError ("Error parsing JSON response: " ++ exn_str e)
  | _ => StError ("Error extracting claims: " ++ exn_str e)
  end.

(** The warning [verify_claim] shows for an exception it caught, and the
    explanation it puts in the result. *)
Definition verification_warning (short : string) (e : exception) : event :=
  match e with
  | JSONDecodeError _ =>
      StWarning ("Error parsing verification response for claim: " ++ short ++ "...")
  | _ => StWarning ("Error verifying claim: " ++ short ++ "... - " ++ exn_str e)
  end.

Definition verification_error_text (e : exception) : string :=
  match e with
  | JSONDecodeError _ => "Error parsing verification response: " ++ exn_str e
  | _ => "Error during verification: " ++ exn_str e
  end.

(** The items of the dictionary the [except] clauses return for the claim [d]. *)
Definition error_fields (d : dict) (explanation : string) : dict :=
  [("claim", dict_get_default "claim" (VStr "") d);
   ("type", dict_get_default "type" (VStr "other") d);
   ("status", VStr "ERROR");
   ("explanation", VStr explanation);
   ("correct_info", VNone);
   ("confidence", VStr "LOW");
   ("sources", VList [])].

(** Lines 190-198: the dictionary built from the decoded verdict. *)
Definition verdict_result (claim_text claim_type verification search_results : value)
  : result value :=
  (status <- py_get verification "status" (VStr "UNKNOWN") ;;
   explanation <- py_get verification "explanation" (VStr "") ;;
   correct_info <- py_get verification "correct_info" VNone ;;
   confidence <- py_get verification "confidence" (VStr "MEDIUM") ;;
   sources <- collect_sources search_results ;;
   inr (VDict [("claim", claim_text);
               ("type", claim_type);
               ("status", status);
               ("explanation", explanation);
               ("correct_info", correct_info);
               ("confidence", confidence);
               ("sources", VList sources)]))%res.

Section Observations.

Context {RT : Runtime}.

(** The request [search_web_for_claim] makes for a claim. *)
Definition search_request_for (claim : value) : search_request :=
  {| query := format_value claim; search_depth := "advanced"; max_results := 5 |}.

(** The exception that ends the verification call [verify_claim] makes
    from state [s] for the claim [d]: raised by the call, or by the
    decoding of its reply; [None] when the reply decodes (or no call is
    made, the context of the prompt having failed). *)
Definition oracle_failure (openai_client : OpenAI) (d : dict) (search_results : value)
    (s : state) : option exception :=
  match build_search_context search_results with
  | inl _ => None
  | inr search_context =>
      let req := verification_request (dict_get_default "claim" (VStr "") d)
                   (dict_get_default "type" (VStr "other") d) search_context in
      match fst (chat_completions_create openai_client req (world s)) with
      | inl e => Some e
      | inr content =>
          match json_loads_content content with
          | inl e => Some e
          | inr _ => None
          end
      end
  end.

(** [r] is what the loop of [main] computes for [claim]: the result of
    [verify_claim] on the claim and on what [search_web_for_claim] found
    for it, with status ["ERROR"] when the verification call failed. *)
Definition verified_from (openai_client : OpenAI) (tavily_client : TavilyClient)
    (claim r : value) : Prop :=
  exists d fields found s0 s1 s2,
    claim = VDict d /\
    r = VDict fields /\
    search_web_for_claim (dict_get_default "claim" (VStr "") d)
      (dict_get_default "type" (VStr "other") d) tavily_client s0 = (inr found, s1) /\
    verify_claim claim found openai_client s1 = (inr r, s2) /\
    dict_get "claim" fields = Some (dict_get_default "claim" (VStr "") d) /\
    (forall e, oracle_failure openai_client d found s1 = Some e ->
               dict_get "status" fields = Some (VStr "ERROR")).

(** The state in which the loop of [main] starts the search for the claim
    at index [idx]: the status text and the progress bar have been set. *)
Definition announced (idx total_claims : Z) (s : state) : state :=
  record_event (StProgress idx total_claims)
    (record_event (StStatusText ("Verifying claim " ++ str_of_Z (idx + 1) ++ " of "
                                 ++ str_of_Z total_claims ++ "...")) s).

(** The loop of [main], from state [s] to state [s'], claim after claim:
    for each claim, in order, one run of [search_web_for_claim] from the
    state the loop has reached, then one run of [verify_claim] on what
    that search found from the state the search left, whose result is
    the result at the claim's position; the next claim starts from the
    state that run of [verify_claim] left, and the loop ends in the
    state the last one left. *)
Fixpoint verified_in_turn (openai_client : OpenAI) (tavily_client : TavilyClient)
    (idx total_claims : Z) (claims results : list value) (s s' : state) : Prop :=
  match claims, results with
  | [], [] => s' = s
  | claim :: claims', r :: results' =>
      exists d fields found s1 s2,
        claim = VDict d /\
        r = VDict fields /\
        search_web_for_claim (dict_get_default "claim" (VStr "") d)
          (dict_get_default "type" (VStr "other") d) tavily_client
          (announced idx total_claims s) = (inr found, s1) /\
        verify_claim claim found openai_client s1 = (inr r, s2) /\
        dict_get "claim" fields = Some (dict_get_default "claim" (VStr "") d) /\
        (forall e, oracle_failure openai_client d found s1 = Some e ->
                   dict_get "status" fields = Some (VStr "ERROR")) /\
        verified_in_turn openai_client tavily_client (idx + 1) total_claims
          claims' results' s2 s'
  | _, _ => False
  end.

End Observations.

(** Notices of errors and warnings. *)
Definition is_notice (e : event) : bool :=
  match e with
  | StError _ | StWarning _ => true
  | _ => false
  end.

(** ** Counting by status *)

(** [st] is the string [key]. *)
Definition is_key (key : string) (st : value) : bool :=
  match st with
  | VStr t => String.eqb key t
  | _ => false
  end.

(** The status under which [main] counts a result is [key]. *)
Definition has_status (key : string) (result : value) : bool :=
  match result with
  | VDict d => is_key key (dict_get_default "status" (VStr "UNKNOWN") d)
  | _ => false
  end.

(** The number of results with status [key]. *)
Definition count_status (key : string) (results : list value) : Z :=
  Z.of_nat (List.length (filter (has_status key) results)).

(** A result the summary can count: a dictionary with a hashable status. *)
Definition result_ok (result : value) : bool :=
  match result with
  | VDict d => hashable (dict_get_default "status" (VStr "UNKNOWN") d)
  | _ => false
  end.


(** [f"{count/total*100:.1f}%"] for a [total] that is not zero. *)
Definition percent_text (count total : Z) : string :=
  format_1f (float_mul_int (SFdiv 53 1024 (int_operand count) (int_operand total)) 100)
  ++ "%".


(** ** More observations *)

(** An environment variable is set: [if not key] is false. *)
Definition key_set (key : option string) : bool :=
  match key with
  | Some (String _ _) => true
  | _ => false
  end.

(** What the pages that gave a text add to the text of a document. *)
Definition page_lines (texts : list (option string)) : list string :=
  flat_map (fun page_text =>
              match page_text with
              | Some t => if String.eqb t "" then [] else [t ++ nl]
              | None => []
              end) texts.

Definition join (parts : list string) : string := fold_right String.append "" parts.

(** The ["url"] of a snippet when it counts as a source. *)
Definition source_url (r : value) : list value :=
  match r with
  | VDict sd =>
      match dict_get "url" sd with
      | Some u => if truthy u then [u] else []
      | None => []
      end
  | _ => []
  end.

(** The sum of the counts of a dictionary of counts. *)
Definition counts_total (c : counts) : Z := fold_right (fun kv acc => snd kv + acc) 0 c.

(** [claim.get("claim", "")], for a claim that is a dictionary. *)
Definition claim_text_of (claim : value) : value :=
  match claim with
  | VDict d => dict_get_default "claim" (VStr "") d
  | _ => VStr ""
  end.

(** The keys of the dictionaries [verify_claim] returns. *)
Definition result_keys : list string :=
  ["claim"; "type"; "status"; "explanation"; "correct_info"; "confidence"; "sources"].

Section MainSteps.

Context {RT : Runtime}.

Local Open Scope py_scope.

(** What [main] does with the claims [extract_claims] returned (lines
    284-385). *)
Definition present_claims (page : page_input) (openai_client : OpenAI)
    (tavily_client : TavilyClient) (claims : list value) : M unit :=
  match claims with
  | [] =>
      emit (StWarning "No verifiable claims found in the document.") ;;
      raise StopException
  | _ =>
      emit (StSuccess ("✅ Found " ++ str_of_Z (Z.of_nat (List.length claims))
                       ++ " verifiable claims")) ;;
      claims_preview 1 claims ;;
      (if verify_button page
       then emit (StProgress 0 1) ;;
            results <- verify_all claims openai_client tavily_client ;;
            emit (StProgress 1 1) ;;
            emit (StStatusText "✅ Verification complete!") ;;
            store_results results ;;
            raise RerunException
       else ret tt) ;;
      stored <- load_results ;;
      match stored with
      | Some results =>
          emit (StMarkdown "---") ;;
          emit (StHeader "📊 Verification Results") ;;
          show_summary results ;;
          emit (StMarkdown "### Detailed Results") ;;
          show_results 1 results
      | None => ret tt
      end
  end.

(** The state after the events [shown] have been shown, in order. *)
Definition record_events (shown : list event) (s : state) : state :=
  fold_left (fun s0 e => record_event e s0) shown s.

(** [@st.cache_resource] (line 13).  The decorated function runs its body
    on the first call in the process; Streamlit keeps the value it
    returned together with the elements it showed, and every later call
    returns that value and shows those elements again, without running
    the body.  The function has no parameter, so there is one entry. *)
Definition resource_cache (A : Type) : Type := option (A * list event).

Definition cache_resource {A : Type} (body : M A) (cache : resource_cache A)
  : M (A * resource_cache A) :=
  fun s =>
    match cache with
    | Some (kept, shown) => (inr (kept, cache), record_events shown s)
    | None =>
        match body s with
        | (inr returned, s') =>
            (inr (returned,
                  Some (returned, skipn (List.length (trace s)) (trace s'))), s')
        | (inl e, s') => (inl e, s')
        end
    end.

(** [init_clients] as the script calls it: [env] is the environment at
    the time of the call, which only the first call in the process
    reads.  In [main], the environment is therefore the one of that
    first call. *)
Definition cached_init_clients (env : environment)
    (cache : resource_cache (option OpenAI * option TavilyClient))
  : M ((option OpenAI * option TavilyClient)
       * resource_cache (option OpenAI * option TavilyClient)) :=
  cache_resource (init_clients env) cache.

(** What [main] does with the clients [init_clients] returned (lines
    250-385). *)
Definition with_clients (clients : option OpenAI * option TavilyClient)
    (page : page_input) : M unit :=
  match clients with
  | (Some openai_client, Some tavily_client) =>
      match uploaded_file page with
      | None => ret tt
      | Some pdf =>
          pdf_text <- extract_text_from_pdf pdf ;;
          if String.eqb pdf_text ""
          then emit (StError "Could not extract text from PDF. Please ensure the PDF contains readable text.") ;;
               raise StopException
          else
            emit (StSuccess ("✅ Extracted " ++ str_of_Z (py_len pdf_text)
                             ++ " characters from PDF")) ;;
            claims <- extract_claims pdf_text openai_client ;;
            present_claims page openai_client tavily_client claims
      end
  | _ =>
      emit (StWarning "Please set up your API keys in the .env file. See README for instructions.") ;;
      raise StopException
  end.

(** One run of the script in a process whose cache of [init_clients] is
    [cache]: the outcome of the run, and the cache after it. *)
Definition run_script (cache : resource_cache (option OpenAI * option TavilyClient))
    (env : environment) (page : page_input) (s : state)
  : ((exn + unit) * state) * resource_cache (option OpenAI * option TavilyClient) :=
  match cached_init_clients env cache s with
  | (inr (clients, kept), s') => (with_clients clients page s', kept)
  | (inl e, s') => ((inl e, s'), cache)
  end.

(** The metrics of the summary (lines 341-352). *)
Definition summary_events (results : list value) : list event :=
  let total := Z.of_nat (List.length results) in
  [StMetric "Total Claims" total None;
   StMetric "✅ Verified" (count_status "VERIFIED" results)
     (Some (percent_text (count_status "VERIFIED" results) total));
   StMetric "⚠️ Inaccurate" (count_status "INACCURATE" results)
     (Some (percent_text (count_status "INACCURATE" results) total));
   StMetric "❌ False" (count_status "FALSE" results)
     (Some (percent_text (count_status "FALSE" results) total))].

(** The lines of the sources of a card: one for each source that is not
    empty. *)
Definition source_lines (sources : list value) : list event :=
  flat_map (fun source_url =>
              if truthy source_url
              then [StMarkdown ("- [" ++ format_value source_url ++ "]("
                                ++ format_value source_url ++ ")")]
              else []) sources.

(** The card of a result that is a dictionary with a string for type,
    numbered [idx] (lines 357-385): heading, claim, type, confidence and
    explanation; the correct information when there is one; the sources
    when there are some; the rule that closes the card. *)
Definition card (idx : Z) (result : value) : list event :=
  match result with
  | VDict d =>
      let status := dict_get_default "status" (VStr "UNKNOWN") d in
      let correct_info := dict_get_default "correct_info" VNone d in
      let sources := dict_get_default "sources" (VList []) d in
      ([StMarkdown ("#### "
                    ++ match get_status_emoji status with
                       | inr status_emoji => status_emoji
                       | inl _ => ""
                       end
                    ++ " Claim " ++ str_of_Z idx ++ ": " ++ format_value status);
        StMarkdown ("**Claim:** " ++ format_value (dict_get_default "claim" (VStr "N/A") d));
        StMarkdown ("**Type:** "
                    ++ match dict_get_default "type" (VStr "unknown") d with
                       | VStr claim_type => str_title claim_type
                       | _ => ""
                       end);
        StMarkdown ("**Confidence:** "
                    ++ format_value (dict_get_default "confidence" (VStr "MEDIUM") d));
        StMarkdown ("**Explanation:** "
                    ++ format_value (dict_get_default "explanation"
                                       (VStr "No explanation provided.") d))]
       ++ (if truthy correct_info
           then [StInfo ("**Correct Information:** " ++ format_value correct_info)]
           else [])
       ++ (if truthy sources
           then StMarkdown "**Sources:**"
                :: source_lines match py_iter sources with
                                | inr items => items
                                | inl _ => []
                                end
           else [])
       ++ [StMarkdown "---"])%list
  | _ => []
  end.

(** The cards of the results, numbered from [idx]. *)
Fixpoint cards (idx : Z) (results : list value) : list event :=
  match results with
  | [] => []
  | result :: rest => (card idx result ++ cards (idx + 1) rest)%list
  end.

(** From [s] to [s'] no call was made and nothing was stored. *)
Definition quiet (s s' : state) : Prop :=
  world s' = world s /\
  verification_results s' = verification_results s /\
  filter is_chat (trace s') = filter is_chat (trace s) /\
  filter is_search (trace s') = filter is_search (trace s).

End MainSteps.

(** A result the cards can show: a dictionary with a hashable status, a
    string for type, and sources that are empty or can be iterated. *)
Definition renderable (result : value) : bool :=
  match result with
  | VDict d =>
      hashable (dict_get_default "status" (VStr "UNKNOWN") d)
      && match dict_get_default "type" (VStr "unknown") d with
         | VStr _ => true
         | _ => false
         end
      && match dict_get_default "sources" (VList []) d with
         | VList _ | VStr _ | VDict _ => true
         | v => negb (truthy v)
         end
  | _ => false
  end.

(** ** Concrete inputs *)

Definition gdp_text : value := VStr "The GDP of Country X was $5 trillion in 2020.".

Definition gdp_snippet : value :=
  VDict [("title", VStr "Country X economy");
         ("content", VStr "GDP reached $4.8 trillion in 2020.");
         ("url", VStr "https://example.org/country-x")].

Definition gdp_evidence : value :=
  VDict [("results", VList [gdp_snippet]); ("query", gdp_text)].

Definition no_evidence : value := VDict [("results", VList []); ("query", gdp_text)].

Definition gdp_request (search_context : string) : chat_request :=
  @verification_request scripted gdp_text (VStr "other") search_context.

Definition gdp_context : string :=
  match @build_search_context scripted gdp_evidence with
  | inr search_context => search_context
  | inl _ => ""
  end.

Definition scripted_env : @environment scripted :=
  {| OPENAI_API_KEY := Some "sk-test";
     TAVILY_API_KEY := Some "tvly-test";
     new_OpenAI := fun _ => scripted_openai;
     new_TavilyClient := fun _ => scripted_tavily |}.

(** A file whose only page has no text. *)
Definition scanned_pdf : pdf_file := inr [inr None].

Fixpoint repeat_char (n : nat) : string :=
  match n with
  | O => ""
  | S n' => String "x" (repeat_char n')
  end.

(** A text of 8001 characters. *)
Definition long_text : string := repeat_char (Z.to_nat 8001).

(** A text of [n] accented letters, of two bytes each. *)
Fixpoint accented_text (n : nat) : string :=
  match n with
  | O => ""
  | S n' => "é" ++ accented_text n'
  end.

(** An environment without keys. *)
Definition no_keys : @environment scripted :=
  {| OPENAI_API_KEY := None;
     TAVILY_API_KEY := None;
     new_OpenAI := fun _ => scripted_openai;
     new_TavilyClient := fun _ => scripted_tavily |}.

Definition error_result_example : value :=
  VDict (error_fields [("claim", gdp_text)] "Error during verification: Connection error.").

Definition verified_result_example : value :=
  VDict [("claim", gdp_text); ("type", VStr "other"); ("status", VStr "VERIFIED");
         ("explanation", VStr ""); ("correct_info", VNone);
         ("confidence", VStr "HIGH"); ("sources", VList [])].

(** The judge answers FALSE and the search raises. *)
Definition judge_only : @state scripted := start [inr (Some text_status_false)] [].

(** A file with one page of text, and its text. *)
Definition report_pdf : pdf_file :=
  inr [inr (Some "The GDP of Country X was $5 trillion in 2020."); inr None].

Definition report_text : string :=
  "The GDP of Country X was $5 trillion in 2020." ++ nl.

Definition report_page (pressed : bool) : page_input :=
  {| uploaded_file := Some report_pdf; verify_button := pressed |}.

(** The extraction lists the claim, the judge answers FALSE, the search
    finds the snippet. *)
Definition full_script : @state scripted :=
  start [inr (Some text_claims_one); inr (Some text_status_false)] [inr gdp_evidence].

(** A later run: the results of a verification are in the session. *)
Definition rerun_state : @state scripted :=
  {| world := {| chat_replies := [inr (Some text_claims_one)]; search_replies := [] |}
              : @World scripted;
     trace := [];
     verification_results := Some [verified_result_example; error_result_example] |}.

(** A runtime whose decoder also knows a list with a number in it. *)
Definition loose_json_loads (s : string) : string + value :=
  if String.eqb s "[7]" then inr (VList [VInt 7]) else scripted_json_loads s.

Definition loose : Runtime :=
  {| World := script;
     json_loads := loose_json_loads;
     py_repr := scripted_repr;
     str_title := scripted_title |}.

Definition loose_openai : @OpenAI loose :=
  {| chat_completions_create := fun _ (w : @World loose) =>
       match chat_replies w with
       | [] => (inl connection_error, w)
       | r :: rest => (r, {| chat_replies := rest; search_replies := search_replies w |})
       end |}.

Definition loose_tavily : @TavilyClient loose :=
  {| search := fun _ (w : @World loose) => (inl connection_error, w) |}.

Definition loose_env : @environment loose :=
  {| OPENAI_API_KEY := Some "sk-test";
     TAVILY_API_KEY := Some "tvly-test";
     new_OpenAI := fun _ => loose_openai;
     new_TavilyClient := fun _ => loose_tavily |}.

Definition loose_start : @state loose :=
  {| world := {| chat_replies := [inr (Some "[7]")]; search_replies := [] |}
              : @World loose;
     trace := [];
     verification_results := None |}.

(** Evidence whose first result has no content ([None]). *)
Definition broken_evidence : value :=
  VDict [("results", VList [VDict [("title", VStr "Country X"); ("content", VNone)]])].

(** Four results: one without a link, then three with links. *)
Definition four_results : list value :=
  [VDict [("title", VStr "a")];
   VDict [("url", VStr "https://example.org/1")];
   VDict [("url", VStr "https://example.org/2")];
   VDict [("url", VStr "https://example.org/3")]].

Section Properties.

Context {RT : Runtime}.

Local Open Scope py_scope.

(** *** The monad *)

Lemma world_record_event (e : event) (s : state) :
  world (record_event e s) = world s.
Proof. reflexivity. Qed.

Lemma trace_record_event (e : event) (s : state) :
  trace (record_event e s) = (trace s ++ [e])%list.
Proof. reflexivity. Qed.

Lemma trace_set_world (w : World) (s : state) :
  trace (set_world w s) = trace s.
Proof. reflexivity. Qed.

Lemma bind_lift {A B} (r : result A) (k : A -> M B) (s : state) :
  bind (lift r) k s =
  match r with
  | inl e => (inl (Exception e), s)
  | inr a => k a s
  end.
Proof. destruct r; reflexivity. Qed.

Lemma bind_returns {A B} (m : M A) (k : A -> M B) (s s' : state) (a : A) :
  m s = (inr a, s') -> bind m k s = k a s'.
Proof. intros H. unfold bind. rewrite H. reflexivity. Qed.

Ltac step_lift :=
  match goal with
  | |- context [bind (lift ?r) ?k ?s] => rewrite (bind_lift r k s); cbv beta iota
  end.

Lemma lift_run {A} (r : result A) (s : state) :
  lift r s = (match r with inl e => inl (Exception e) | inr a => inr a end, s).
Proof. destruct r; reflexivity. Qed.

Lemma bind_emit {B} (e : event) (k : unit -> M B) (s : state) :
  bind (emit e) k s = k tt (record_event e s).
Proof. reflexivity. Qed.

Lemma bind_ret {A B} (a : A) (k : A -> M B) (s : state) :
  bind (ret a) k s = k a s.
Proof. reflexivity. Qed.

Lemma bind_assoc {A B C} (m : M A) (f : A -> M B) (g : B -> M C) (s : state) :
  bind (bind m f) g s = bind m (fun a => bind (f a) g) s.
Proof. unfold bind. destruct (m s) as [[e | a] s']; reflexivity. Qed.

Lemma bind_call_chat {B} (client : OpenAI) (req : chat_request)
    (k : option string -> M B) (s : state) :
  bind (call_chat client req) k s =
  let s1 := set_world (snd (chat_completions_create client req (world s)))
              (record_event (ChatCreate req) s) in
  match fst (chat_completions_create client req (world s)) with
  | inl e => (inl (Exception e), s1)
  | inr content => k content s1
  end.
Proof.
  unfold bind, call_chat.
  destruct (chat_completions_create client req (world s)) as [[e | content] w];
    reflexivity.
Qed.

Lemma bind_call_search {B} (client : TavilyClient) (req : search_request)
    (k : value -> M B) (s : state) :
  bind (call_search client req) k s =
  let s1 := set_world (snd (search client req (world s)))
              (record_event (TavilySearch req) s) in
  match fst (search client req (world s)) with
  | inl e => (inl (Exception e), s1)
  | inr response => k response s1
  end.
Proof.
  unfold bind, call_search.
  destruct (search client req (world s)) as [[e | response] w]; reflexivity.
Qed.

(** *** Strings *)

Lemma str_app_assoc (a b c : string) : (a ++ b) ++ c = a ++ (b ++ c).
Proof. induction a as [| ch a IH]; cbn; [reflexivity | rewrite IH; reflexivity]. Qed.

Lemma str_app_empty_r (a : string) : a ++ "" = a.
Proof. induction a as [| ch a IH]; cbn; [reflexivity | rewrite IH; reflexivity]. Qed.


Lemma str_take_prefix (n : nat) (s : string) :
  exists rest, s = str_take n s ++ rest.
Proof.
  revert n; induction s as [| c s IH]; intros n; cbn [str_take].
  - exists "". reflexivity.
  - destruct (continues c).
    + destruct (IH n) as [rest Hrest]. exists rest. cbn. congruence.
    + destruct n as [| n].
      * exists (String c s). reflexivity.
      * destruct (IH n) as [rest Hrest]. exists rest. cbn. congruence.
Qed.

Lemma str_take_all (n : nat) (s : string) :
  (str_length s <= n)%nat -> str_take n s = s.
Proof.
  revert n; induction s as [| c s IH]; intros n H; cbn [str_take str_length] in *;
    [reflexivity |].
  destruct (continues c).
  - f_equal. apply IH. exact H.
  - destruct n as [| n]; [lia |]. f_equal. apply IH. lia.
Qed.

(** *** [extract_claims] *)

(** What one call of [extract_claims] does, step by step. *)
Lemma extract_claims_run (text : string) (openai_client : OpenAI) (s : state) :
  let s0 := if py_len text >? max_text_length
            then record_event (StInfo truncation_notice) s else s in
  let req := extraction_request (analyzed_text text) in
  let s1 := set_world (snd (chat_completions_create openai_client req (world s)))
              (record_event (ChatCreate req) s0) in
  extract_claims text openai_client s =
  match rbind (fst (chat_completions_create openai_client req (world s)))
              json_loads_content with
  | inr parsed => (inr (claims_of_result parsed), s1)
  | inl e => (inr [], record_event (extraction_error e) s1)
  end.
Proof.
  unfold extract_claims, try_except, analyzed_text, bind, call_chat, emit, ret.
  destruct (py_len text >? max_text_length); cbv zeta; rewrite ?world_record_event;
    destruct (chat_completions_create openai_client _ (world s)) as [[e | content] w];
    simpl fst; simpl snd; simpl rbind; rewrite ?lift_run;
    try (destruct e; reflexivity);
    destruct (json_loads_content content) as [e | parsed]; try destruct e; reflexivity.
Qed.


(** C3.  When the reply of the extraction call decodes to a bare list,
    [extract_claims] returns that list; when it decodes to a dictionary
    whose ["claims"] entry is a list, it returns that entry; for every
    other decoded shape (a dictionary without the entry or with an entry
    that is not a list, a number, a string, [None]) it returns the empty
    list. *)
Theorem extract_claims_normalizes_shapes
    (text : string) (openai_client : OpenAI) (s : state)
    (content : option string) (w : World) (parsed : value) :
  chat_completions_create openai_client (extraction_request (analyzed_text text)) (world s)
    = (inr content, w) ->
  json_loads_content content = inr parsed ->
  exists claims s',
    extract_claims text openai_client s = (inr claims, s') /\
    (forall l, parsed = VList l -> claims = l) /\
    (forall d l, parsed = VDict d -> dict_get "claims" d = Some (VList l) -> claims = l) /\
    ((forall l, parsed <> VList l) ->
     (forall d l, parsed = VDict d -> dict_get "claims" d <> Some (VList l)) ->
     claims = []).
Proof.
  intros Hcall Hparse.
  pose proof (extract_claims_run text openai_client s) as Hrun.
  cbv zeta in Hrun. rewrite Hcall in Hrun. simpl fst in Hrun. simpl snd in Hrun.
  simpl rbind in Hrun. rewrite Hparse in Hrun.
  eexists; eexists; split; [exact Hrun |].
  split; [| split].
  - intros l ->. reflexivity.
  - intros d l -> Hd. unfold claims_of_result. rewrite Hd. reflexivity.
  - intros Hlist Hdict. unfold claims_of_result.
    destruct parsed as [| b | n | q | t | l | d]; try reflexivity.
    + exfalso. apply (Hlist l). reflexivity.
    + destruct (dict_get "claims" d) as [c |] eqn:Hd; [| reflexivity].
      destruct c as [| b | n | q | t | l | d']; try reflexivity.
      exfalso. apply (Hdict d l); [reflexivity | exact Hd].
Qed.




(** *** [search_web_for_claim] *)

Lemma search_web_for_claim_run (claim claim_type : value) (tavily_client : TavilyClient)
    (s : state) :
  let req := search_request_for claim in
  let s1 := set_world (snd (search tavily_client req (world s)))
              (record_event (TavilySearch req) s) in
  search_web_for_claim claim claim_type tavily_client s =
  match rbind (fst (search tavily_client req (world s)))
              (fun response => py_get response "results" (VList [])) with
  | inr results =>
      (inr (VDict [("results", results); ("query", VStr (format_value claim))]), s1)
  | inl e =>
      (inr (VDict [("results", VList []); ("query", claim)]),
       record_event (StError ("Error searching web: " ++ exn_str e)) s1)
  end.
Proof.
  unfold search_web_for_claim, try_except, search_request_for, bind, call_search, emit, ret.
  cbv zeta.
  destruct (search tavily_client _ (world s)) as [[e | response] w];
    simpl fst; simpl snd; simpl rbind; rewrite ?lift_run; [reflexivity |].
  destruct (py_get response "results" (VList [])); reflexivity.
Qed.

(** C7.  [search_web_for_claim] always returns, and it calls the search
    client exactly once: the world after it is the world the client's
    one call leaves, and what it adds to the trace is that one request,
    with the claim as query, depth ["advanced"] and at most 5 results
    asked for, followed by nothing when the reply is a dictionary and by
    one error notice otherwise.  For a reply that is a dictionary it
    returns the reply's ["results"] (an empty list when the reply has
    none) and the query; when the search call raises, it returns the
    dictionary with an empty ["results"] list and the claim it was given
    under ["query"], after the notice that names the error. *)
Theorem search_web_for_claim_single_request
    (claim claim_type : value) (tavily_client : TavilyClient) (s : state) :
  exists found s' req tail,
    search_web_for_claim claim claim_type tavily_client s = (inr found, s') /\
    trace s' = (trace s ++ [TavilySearch req] ++ tail)%list /\
    forallb (fun e => negb (is_search e)) tail = true /\
    world s' = snd (search tavily_client req (world s)) /\
    verification_results s' = verification_results s /\
    search_depth req = "advanced" /\
    max_results req = 5 /\
    query req = format_value claim /\
    (forall q, claim = VStr q -> query req = q) /\
    (forall d, fst (search tavily_client req (world s)) = inr (VDict d) ->
               found = VDict [("results", dict_get_default "results" (VList []) d);
                              ("query", VStr (format_value claim))] /\
               tail = []) /\
    (forall e, fst (search tavily_client req (world s)) = inl e ->
               found = VDict [("results", VList []); ("query", claim)] /\
               tail = [StError ("Error searching web: " ++ exn_str e)]).
Proof.
  pose proof (search_web_for_claim_run claim claim_type tavily_client s) as Hrun.
  cbv zeta in Hrun.
  destruct (fst (search tavily_client (search_request_for claim) (world s)))
    as [e | response] eqn:Hcall; simpl rbind in Hrun;
    [| destruct (py_get response "results" (VList [])) as [e | results] eqn:Hget];
    do 2 eexists; exists (search_request_for claim);
    [ exists [StError ("Error searching web: " ++ exn_str e)]
    | exists [StError ("Error searching web: " ++ exn_str e)]
    | exists [] ];
    (split; [exact Hrun |]); cbn [trace world verification_results record_event set_world];
    rewrite <- ?app_assoc;
    repeat match goal with |- _ /\ _ => split end; try reflexivity;
    try (intros q ->; reflexivity).
  - intros d Hd. rewrite Hcall in Hd. discriminate Hd.
  - intros e' He'. rewrite Hcall in He'. injection He' as <-. split; reflexivity.
  - intros d Hd. rewrite Hcall in Hd. injection Hd as ->. discriminate Hget.
  - intros e' He'. rewrite Hcall in He'. discriminate He'.
  - intros d Hd. rewrite Hcall in Hd. injection Hd as ->.
    cbn [py_get] in Hget. injection Hget as <-. split; reflexivity.
  - intros e' He'. rewrite Hcall in He'. discriminate He'.
Qed.

(** *** [verify_claim] *)

Lemma verification_failed_run (d : dict) (e : exception) (s : state) :
  sliceable (dict_get_default "claim" (VStr "") d) = true ->
  exists short,
    verification_failed (VDict d) e s =
    (inr (VDict (error_fields d (verification_error_text e))),
     record_event (verification_warning short e) s).
Proof.
  intros Hs.
  unfold verification_failed, claim_preview, error_result, error_fields, bind, emit.
  cbn [py_get rbind].
  destruct (dict_get_default "claim" (VStr "") d) as [| b | n | q | t | l | d'];
    try discriminate Hs; cbn [py_slice_to rbind lift ret];
    destruct e; eexists; reflexivity.
Qed.

(** What one call of [verify_claim] on a dictionary does, step by step. *)
Lemma verify_claim_run (d : dict) (search_results : value) (openai_client : OpenAI)
    (s : state) :
  let claim_text := dict_get_default "claim" (VStr "") d in
  let claim_type := dict_get_default "type" (VStr "other") d in
  verify_claim (VDict d) search_results openai_client s =
  match build_search_context search_results with
  | inl e => verification_failed (VDict d) e s
  | inr search_context =>
      let req := verification_request claim_text claim_type search_context in
      let s1 := set_world (snd (chat_completions_create openai_client req (world s)))
                  (record_event (ChatCreate req) s) in
      match rbind (fst (chat_completions_create openai_client req (world s)))
              (fun content =>
                 rbind (json_loads_content content)
                   (fun verification =>
                      verdict_result claim_text claim_type verification search_results))
      with
      | inl e => verification_failed (VDict d) e s1
      | inr verified => (inr verified, s1)
      end
  end.
Proof.
  cbv zeta. unfold verify_claim, try_except.
  cbn [py_get]. do 3 step_lift.
  destruct (build_search_context search_results) as [e | search_context];
    [reflexivity |].
  rewrite bind_call_chat. cbv zeta.
  destruct (chat_completions_create openai_client _ (world s)) as [[e | content] w];
    cbn [fst snd rbind]; [reflexivity |].
  step_lift. unfold verdict_result.
  destruct (json_loads_content content) as [e | verification]; cbn [rbind];
    [reflexivity |].
  repeat (step_lift;
          match goal with
          | |- context [py_get ?v ?k ?dflt] =>
              destruct (py_get v k dflt); cbn [rbind]; [reflexivity |]
          | |- context [collect_sources ?v] =>
              destruct (collect_sources v); cbn [rbind]; [reflexivity |]
          end).
  reflexivity.
Qed.

(** The verdict dictionary, once it is built, has the fields of the
    decoded reply or their defaults, and the collected sources. *)
Lemma verdict_result_fields (claim_text claim_type verification search_results r : value) :
  verdict_result claim_text claim_type verification search_results = inr r ->
  exists vd sources,
    verification = VDict vd /\
    collect_sources search_results = inr sources /\
    r = VDict [("claim", claim_text);
               ("type", claim_type);
               ("status", dict_get_default "status" (VStr "UNKNOWN") vd);
               ("explanation", dict_get_default "explanation" (VStr "") vd);
               ("correct_info", dict_get_default "correct_info" VNone vd);
               ("confidence", dict_get_default "confidence" (VStr "MEDIUM") vd);
               ("sources", VList sources)].
Proof.
  unfold verdict_result.
  destruct verification as [| b | n | q | t | l | vd]; try discriminate.
  cbn [py_get rbind].
  destruct (collect_sources search_results) as [e | sources]; [discriminate |].
  cbn [rbind]. intros H. injection H as <-.
  exists vd, sources. repeat split.
Qed.

(** Every outcome of [verify_claim] on a claim that has slices: it
    returns, either the dictionary of an [except] clause or the verdict
    dictionary. *)
Lemma verify_claim_returns (d : dict) (search_results : value) (openai_client : OpenAI)
    (s : state) :
  sliceable (dict_get_default "claim" (VStr "") d) = true ->
  exists fields s',
    verify_claim (VDict d) search_results openai_client s = (inr (VDict fields), s') /\
    ((exists e, fields = error_fields d (verification_error_text e)) \/
     (exists verification,
        verdict_result (dict_get_default "claim" (VStr "") d)
          (dict_get_default "type" (VStr "other") d) verification search_results
        = inr (VDict fields))).
Proof.
  intros Hs. rewrite verify_claim_run. cbv zeta.
  destruct (build_search_context search_results) as [e | search_context].
  - destruct (verification_failed_run d e s Hs) as [short ->].
    do 2 eexists. split; [reflexivity |]. left. exists e. reflexivity.
  - destruct (fst (chat_completions_create openai_client _ (world s)))
      as [e | content]; cbn [rbind].
    + match goal with
      | |- context [verification_failed _ _ ?s1] =>
          destruct (verification_failed_run d e s1 Hs) as [short ->]
      end.
      do 2 eexists. split; [reflexivity |]. left. exists e. reflexivity.
    + destruct (json_loads_content content) as [e | verification]; cbn [rbind].
      * match goal with
        | |- context [verification_failed _ _ ?s1] =>
            destruct (verification_failed_run d e s1 Hs) as [short ->]
        end.
        do 2 eexists. split; [reflexivity |]. left. exists e. reflexivity.
      * destruct (verdict_result _ _ verification search_results) as [e | r] eqn:Hv.
        -- match goal with
           | |- context [verification_failed _ _ ?s1] =>
               destruct (verification_failed_run d e s1 Hs) as [short ->]
           end.
           do 2 eexists. split; [reflexivity |]. left. exists e. reflexivity.
        -- destruct (verdict_result_fields _ _ _ _ _ Hv) as (vd & sources & _ & _ & ->).
           do 2 eexists. split; [reflexivity |]. right. exists verification. exact Hv.
Qed.

Lemma verification_failed_inverts (claim : value) (e : exception) (s s' : state)
    (r : value) :
  verification_failed claim e s = (inr r, s') ->
  exists d, claim = VDict d /\ r = VDict (error_fields d (verification_error_text e)).
Proof.
  unfold verification_failed, claim_preview, error_result.
  destruct claim as [| b | n | q | t | l | d];
    try (destruct e; cbn [py_get rbind]; step_lift; discriminate).
  intros H. exists d. split; [reflexivity |].
  cbn [py_get rbind] in H.
  destruct e; revert H; step_lift;
    (destruct (py_slice_to (dict_get_default "claim" (VStr "") d) 50);
     cbn [rbind]; [discriminate |]);
    rewrite bind_emit, lift_run; intros H; injection H as <- _; reflexivity.
Qed.

(** Whenever [verify_claim] returns, the claim is a dictionary and the
    result is the dictionary of an [except] clause or the verdict
    dictionary. *)
Lemma verify_claim_inverts (claim search_results : value) (openai_client : OpenAI)
    (s s' : state) (r : value) :
  verify_claim claim search_results openai_client s = (inr r, s') ->
  exists d fields,
    claim = VDict d /\ r = VDict fields /\
    ((exists e, fields = error_fields d (verification_error_text e)) \/
     (exists verification,
        verdict_result (dict_get_default "claim" (VStr "") d)
          (dict_get_default "type" (VStr "other") d) verification search_results
        = inr (VDict fields))).
Proof.
  destruct claim as [| b | n | q | t | l | d];
    try (unfold verify_claim, try_except; cbn [py_get]; step_lift;
         intros H; apply verification_failed_inverts in H as (d & Hd & _);
         discriminate Hd).
  rewrite verify_claim_run. cbv zeta. intros H.
  assert (Hfailed : forall e s1, verification_failed (VDict d) e s1 = (inr r, s') ->
            exists d0 fields, VDict d = VDict d0 /\ r = VDict fields /\
              ((exists e, fields = error_fields d0 (verification_error_text e)) \/
               (exists verification,
                  verdict_result (dict_get_default "claim" (VStr "") d0)
                    (dict_get_default "type" (VStr "other") d0) verification
                    search_results = inr (VDict fields)))).
  { intros e s1 He. apply verification_failed_inverts in He as (d0 & Hd0 & ->).
    injection Hd0 as <-. exists d. eexists. split; [reflexivity |].
    split; [reflexivity |]. left. exists e. reflexivity. }
  destruct (build_search_context search_results) as [e | search_context];
    [exact (Hfailed _ _ H) |].
  destruct (rbind _ _) as [e | verified] eqn:Hv in H; [exact (Hfailed _ _ H) |].
  injection H as <- _.
  destruct (fst (chat_completions_create openai_client _ (world s)))
    as [e | content]; [discriminate |].
  cbn [rbind] in Hv.
  destruct (json_loads_content content) as [e | verification]; [discriminate |].
  cbn [rbind] in Hv.
  destruct (verdict_result_fields _ _ _ _ _ Hv) as (vd & sources & _ & _ & Hr).
  exists d. eexists. split; [reflexivity |]. split; [exact Hr |].
  right. exists verification. rewrite <- Hr. exact Hv.
Qed.

(** C10.  Whatever the evidence and whatever the oracle does, on the
    verdict path and in both [except] clauses: the dictionary
    [verify_claim] returns for a claim has under ["claim"] and ["type"] the
    entries of the claim under those keys, unchanged, and the empty string
    and ["other"] where the claim has no such entry.  It returns such a
    dictionary for every claim whose text has slices. *)
Theorem verify_claim_keeps_claim_and_type
    (claim search_results : value) (openai_client : OpenAI) (s : state) :
  (claim_ok claim = true ->
   exists r s', verify_claim claim search_results openai_client s = (inr r, s')) /\
  (forall r s',
     verify_claim claim search_results openai_client s = (inr r, s') ->
     exists d fields,
       claim = VDict d /\ r = VDict fields /\
       (forall v, dict_get "claim" d = Some v -> dict_get "claim" fields = Some v) /\
       (dict_get "claim" d = None -> dict_get "claim" fields = Some (VStr "")) /\
       (forall v, dict_get "type" d = Some v -> dict_get "type" fields = Some v) /\
       (dict_get "type" d = None -> dict_get "type" fields = Some (VStr "other"))).
Proof.
  split.
  - intros Hok. destruct claim as [| b | n | q | t | l | d]; try discriminate Hok.
    cbn [claim_ok] in Hok.
    destruct (verify_claim_returns d search_results openai_client s Hok)
      as (fields & s' & Hrun & _).
    exists (VDict fields), s'. exact Hrun.
  - intros r s' Hrun.
    destruct (verify_claim_inverts _ _ _ _ _ _ Hrun) as (d & fields & -> & -> & Hcases).
    exists d, fields. split; [reflexivity |]. split; [reflexivity |].
    assert (Hfields :
              dict_get "claim" fields = Some (dict_get_default "claim" (VStr "") d) /\
              dict_get "type" fields = Some (dict_get_default "type" (VStr "other") d)).
    { destruct Hcases as [[e ->] | [verification Hv]].
      - split; reflexivity.
      - destruct (verdict_result_fields _ _ _ _ _ Hv) as (vd & sources & _ & _ & Hr).
        injection Hr as ->. split; reflexivity. }
    destruct Hfields as [Hc Ht]. rewrite Hc, Ht. unfold dict_get_default.
    repeat split.
    + intros v ->. reflexivity.
    + intros ->. reflexivity.
    + intros v ->. reflexivity.
    + intros ->. reflexivity.
Qed.

(** C4.  When the chat call of [verify_claim] raises, or the reply it
    gives does not decode, [verify_claim] returns a dictionary with
    status ["ERROR"], confidence ["LOW"], no sources, and an explanation
    that ends with the text of the exception. *)
Theorem verify_claim_reports_failure
    (d : dict) (search_results : value) (openai_client : OpenAI) (s : state)
    (search_context : string) (e : exception) :
  claim_ok (VDict d) = true ->
  build_search_context search_results = inr search_context ->
  let req := verification_request (dict_get_default "claim" (VStr "") d)
               (dict_get_default "type" (VStr "other") d) search_context in
  (fst (chat_completions_create openai_client req (world s)) = inl e \/
   exists content,
     fst (chat_completions_create openai_client req (world s)) = inr content /\
     json_loads_content content = inl e) ->
  exists fields s' prefix,
    verify_claim (VDict d) search_results openai_client s = (inr (VDict fields), s') /\
    dict_get "status" fields = Some (VStr "ERROR") /\
    dict_get "confidence" fields = Some (VStr "LOW") /\
    dict_get "sources" fields = Some (VList []) /\
    dict_get "explanation" fields = Some (VStr (prefix ++ exn_str e)) /\
    (prefix = "Error parsing verification response: " \/
     prefix = "Error during verification: ").
Proof.
  intros Hok Hctx req Hfail. cbn [claim_ok] in Hok.
  rewrite verify_claim_run. cbv zeta. rewrite Hctx. fold req.
  assert (Hraised :
            rbind (fst (chat_completions_create openai_client req (world s)))
              (fun content =>
                 rbind (json_loads_content content)
                   (fun verification =>
                      verdict_result (dict_get_default "claim" (VStr "") d)
                        (dict_get_default "type" (VStr "other") d)
                        verification search_results)) = inl e).
  { destruct Hfail as [-> | (content & -> & Hparse)]; cbn [rbind];
      [| rewrite Hparse]; reflexivity. }
  rewrite Hraised.
  match goal with
  | |- context [verification_failed _ _ ?s1] =>
      destruct (verification_failed_run d e s1 Hok) as [short ->]
  end.
  destruct e as [msg | cls msg].
  - do 2 eexists. exists "Error parsing verification response: ".
    repeat split; try reflexivity. left; reflexivity.
  - do 2 eexists. exists "Error during verification: ".
    repeat split; try reflexivity. right; reflexivity.
Qed.

(** *** The sources of a verdict *)

Lemma sources_loop_spec (items urls : list value) :
  sources_loop items = inr urls ->
  (List.length urls <= List.length items)%nat /\
  forall u, In u urls ->
            exists sd, In (VDict sd) items /\ dict_get "url" sd = Some u.
Proof.
  revert urls; induction items as [| r rest IH]; intros urls H.
  - injection H as <-. split; [reflexivity | intros u []].
  - cbn [sources_loop] in H.
    destruct r as [| b | n | q | t | l | sd]; try discriminate.
    cbn [py_get rbind] in H.
    destruct (truthy (dict_get_default "url" VNone sd)) eqn:Htruthy.
    + cbn [py_get rbind] in H.
      destruct (sources_loop rest) as [e | urls'] eqn:Hrest; [discriminate |].
      cbn [rbind] in H. injection H as <-.
      destruct (IH urls' eq_refl) as [Hlen Hin].
      split; [simpl; lia |].
      intros u [<- | Hu].
      * exists sd. split; [left; reflexivity |].
        unfold dict_get_default in *.
        destruct (dict_get "url" sd); [reflexivity | discriminate].
      * destruct (Hin u Hu) as (sd' & Hsd' & Hurl).
        exists sd'. split; [right; exact Hsd' | exact Hurl].
    + destruct (IH urls H) as [Hlen Hin].
      split; [simpl; lia |].
      intros u Hu. destruct (Hin u Hu) as (sd' & Hsd' & Hurl).
      exists sd'. split; [right; exact Hsd' | exact Hurl].
Qed.

Lemma sources_loop_chars (t : string) (urls : list value) :
  sources_loop (str_chars t) = inr urls -> urls = [].
Proof.
  unfold str_chars. destruct (split_chars "" t) as [| c rest]; cbn;
    [intros H; injection H as <-; reflexivity | discriminate].
Qed.

Lemma collect_sources_spec (search_results : value) (urls : list value) :
  collect_sources search_results = inr urls ->
  (List.length urls <= 3)%nat /\
  forall u, In u urls ->
            exists srd l sd,
              search_results = VDict srd /\
              dict_get "results" srd = Some (VList l) /\
              In (VDict sd) (firstn 3 l) /\
              dict_get "url" sd = Some u.
Proof.
  unfold collect_sources.
  destruct search_results as [| b | n | q | t | l | srd]; try discriminate.
  cbn [py_get rbind]. unfold dict_get_default.
  destruct (dict_get "results" srd) as [results |] eqn:Hresults.
  - destruct results as [| b | n | q | t | l | d']; try discriminate;
      cbn [py_slice_to rbind py_iter]; intros H.
    + apply sources_loop_chars in H. subst urls.
      split; [simpl; lia | intros u []].
    + destruct (sources_loop_spec _ _ H) as [Hlen Hin].
      split.
      * pose proof (firstn_le_length (Z.to_nat 3) l) as Hle.
        change (Z.to_nat 3) with 3%nat in *. lia.
      * intros u Hu. destruct (Hin u Hu) as (sd & Hsd & Hurl).
        exists srd, l, sd. repeat split; assumption.
  - cbn [py_slice_to rbind py_iter]. cbn. intros H. injection H as <-.
    split; [simpl; lia | intros u []].
Qed.

(** The context of the prompt is built from the first three results. *)
Lemma build_search_context_first_three (srd : dict) (l : list value) :
  dict_get "results" srd = Some (VList l) ->
  l <> [] ->
  build_search_context (VDict srd) = search_context_loop 1 (firstn 3 l) "".
Proof.
  intros Hresults Hl. unfold build_search_context.
  cbn [py_get rbind py_getitem]. unfold dict_get_default. rewrite Hresults.
  destruct l as [| r l]; [contradiction |]. reflexivity.
Qed.

(** C5.  The ["sources"] of the dictionary [verify_claim] returns holds
    at most three values, and each of them is the ["url"] entry of one of
    the first three results of the evidence given for the claim, the
    results from which the context of the prompt is built.  It returns
    such a dictionary for every claim whose text has slices. *)
Theorem verify_claim_sources_from_evidence
    (claim search_results : value) (openai_client : OpenAI) (s : state) :
  (claim_ok claim = true ->
   exists r s', verify_claim claim search_results openai_client s = (inr r, s')) /\
  (forall r s',
     verify_claim claim search_results openai_client s = (inr r, s') ->
     exists fields urls,
       r = VDict fields /\
       dict_get "sources" fields = Some (VList urls) /\
       (List.length urls <= 3)%nat /\
       forall u, In u urls ->
                 exists srd l sd,
                   search_results = VDict srd /\
                   dict_get "results" srd = Some (VList l) /\
                   In (VDict sd) (firstn 3 l) /\
                   dict_get "url" sd = Some u /\
                   build_search_context search_results
                     = search_context_loop 1 (firstn 3 l) "").
Proof.
  split.
  - intros Hok. destruct claim as [| b | n | q | t | l | d]; try discriminate Hok.
    cbn [claim_ok] in Hok.
    destruct (verify_claim_returns d search_results openai_client s Hok)
      as (fields & s' & Hrun & _).
    exists (VDict fields), s'. exact Hrun.
  - intros r s' Hrun.
    destruct (verify_claim_inverts _ _ _ _ _ _ Hrun)
      as (d & fields & -> & -> & [[e ->] | [verification Hv]]).
    + eexists _, []. split; [reflexivity |]. split; [reflexivity |].
      split; [simpl; lia | intros u []].
    + destruct (verdict_result_fields _ _ _ _ _ Hv) as (vd & urls & _ & Hsources & Hr).
      injection Hr as ->.
      destruct (collect_sources_spec _ _ Hsources) as [Hlen Hin].
      eexists _, urls. split; [reflexivity |]. split; [reflexivity |].
      split; [exact Hlen |].
      intros u Hu. destruct (Hin u Hu) as (srd & l & sd & -> & Hresults & Hsd & Hurl).
      exists srd, l, sd. repeat split; try assumption.
      apply build_search_context_first_three; [exact Hresults |].
      intros ->. rewrite firstn_nil in Hsd. exact Hsd.
Qed.

(** *** Well-formed evidence *)

Lemma search_context_loop_total (items : list value) :
  forallb snippet_ok items = true ->
  forall i acc, exists search_context, search_context_loop i items acc = inr search_context.
Proof.
  induction items as [| r rest IH]; intros H i acc.
  - exists acc. reflexivity.
  - cbn [forallb] in H. apply andb_prop in H as [Hr Hrest].
    destruct r as [| b | n | q | t | l | sd]; try discriminate Hr.
    cbn [snippet_ok] in Hr.
    cbn [search_context_loop py_get rbind].
    destruct (dict_get_default "content" (VStr "N/A") sd) as [| b | n | q | t | l | d'];
      try discriminate Hr; cbn [py_slice_to rbind]; apply (IH Hrest).
Qed.

Lemma evidence_ok_context (search_results : value) :
  evidence_ok search_results = true ->
  exists search_context, build_search_context search_results = inr search_context.
Proof.
  unfold evidence_ok, build_search_context.
  destruct search_results as [| b | n | q | t | l | srd]; try discriminate.
  cbn [py_get rbind py_getitem]. unfold dict_get_default.
  destruct (dict_get "results" srd) as [results |].
  - destruct results as [| b | n | q | t | l | d']; try discriminate.
    intros H. destruct l as [| r l]; [exists ""; reflexivity |].
    cbn [truthy py_slice_to rbind py_iter].
    apply search_context_loop_total. exact H.
  - intros _. exists "". reflexivity.
Qed.





(** *** The verification loop *)

Lemma search_web_for_claim_returns (claim claim_type : value)
    (tavily_client : TavilyClient) (s : state) :
  exists found s', search_web_for_claim claim claim_type tavily_client s = (inr found, s').
Proof.
  rewrite search_web_for_claim_run. cbv zeta.
  match goal with
  | |- context [match ?r with _ => _ end] => destruct r
  end; do 2 eexists; reflexivity.
Qed.

Lemma verify_claim_on_failure (d : dict) (search_results : value)
    (openai_client : OpenAI) (s : state) (e : exception) :
  sliceable (dict_get_default "claim" (VStr "") d) = true ->
  oracle_failure openai_client d search_results s = Some e ->
  exists s',
    verify_claim (VDict d) search_results openai_client s =
    (inr (VDict (error_fields d (verification_error_text e))), s').
Proof.
  intros Hs Hfail. unfold oracle_failure in Hfail.
  rewrite verify_claim_run. cbv zeta.
  destruct (build_search_context search_results) as [e0 | search_context];
    [discriminate |].
  cbv zeta in Hfail.
  destruct (fst (chat_completions_create openai_client _ (world s))) as [e0 | content];
    cbn [rbind].
  - injection Hfail as ->.
    match goal with
    | |- context [verification_failed _ _ ?s1] =>
        destruct (verification_failed_run d e s1 Hs) as [short ->]
    end.
    eexists. reflexivity.
  - destruct (json_loads_content content) as [e0 | parsed]; [| discriminate].
    injection Hfail as ->. cbn [rbind].
    match goal with
    | |- context [verification_failed _ _ ?s1] =>
        destruct (verification_failed_run d e s1 Hs) as [short ->]
    end.
    eexists. reflexivity.
Qed.

Lemma verify_loop_spec (openai_client : OpenAI) (tavily_client : TavilyClient)
    (claims : list value) :
  forallb claim_ok claims = true ->
  forall idx total_claims results s,
  exists new s',
    verify_loop idx total_claims claims openai_client tavily_client results s
      = (inr (results ++ new)%list, s') /\
    Forall2 (verified_from openai_client tavily_client) claims new.
Proof.
  induction claims as [| claim rest IH]; intros Hok idx total_claims results s.
  - exists [], s. rewrite app_nil_r. split; [reflexivity | constructor].
  - cbn [forallb] in Hok. apply andb_prop in Hok as [Hclaim Hrest].
    destruct claim as [| b | n | q | t | l | d]; try discriminate Hclaim.
    cbn [claim_ok] in Hclaim.
    cbn [verify_loop py_get]. rewrite !bind_emit. do 2 step_lift.
    match goal with
    | |- context [bind (search_web_for_claim ?c ?t ?tc) ?k ?s0] =>
        destruct (search_web_for_claim_returns c t tc s0) as (found & s1 & Hsearch);
        rewrite (bind_returns _ k _ _ _ Hsearch)
    end.
    destruct (verify_claim_returns d found openai_client s1 Hclaim)
      as (fields & s2 & Hverify & Hcases).
    rewrite (bind_returns _ _ _ _ _ Hverify).
    destruct (IH Hrest (idx + 1) total_claims (results ++ [VDict fields])%list s2)
      as (new & s' & Hloop & Hall).
    exists (VDict fields :: new), s'. split.
    + rewrite Hloop. rewrite <- app_assoc. reflexivity.
    + constructor; [| exact Hall].
      exists d, fields, found. do 3 eexists.
      split; [reflexivity |]. split; [reflexivity |].
      split; [exact Hsearch |]. split; [exact Hverify |]. split.
      * destruct Hcases as [[e ->] | [verification Hv]]; [reflexivity |].
        destruct (verdict_result_fields _ _ _ _ _ Hv) as (vd & sources & _ & _ & Hr).
        injection Hr as ->. reflexivity.
      * intros e He.
        destruct (verify_claim_on_failure d found openai_client s1 e Hclaim He)
          as [s2' Hfail].
        rewrite Hfail in Hverify. injection Hverify as <- _. reflexivity.
Qed.

Lemma verify_loop_in_turn (openai_client : OpenAI) (tavily_client : TavilyClient)
    (claims : list value) :
  forallb claim_ok claims = true ->
  forall idx total_claims results s,
  exists new s',
    verify_loop idx total_claims claims openai_client tavily_client results s
      = (inr (results ++ new)%list, s') /\
    List.length new = List.length claims /\
    verified_in_turn openai_client tavily_client idx total_claims claims new s s'.
Proof.
  induction claims as [| claim rest IH]; intros Hok idx total_claims results s.
  - exists [], s. rewrite app_nil_r. repeat split; reflexivity.
  - cbn [forallb] in Hok. apply andb_prop in Hok as [Hclaim Hrest].
    destruct claim as [| b | n | q | t | l | d]; try discriminate Hclaim.
    cbn [claim_ok] in Hclaim.
    cbn [verify_loop py_get]. rewrite !bind_emit. do 2 step_lift.
    match goal with
    | |- context [bind (search_web_for_claim ?c ?t ?tc) ?k ?s0] =>
        destruct (search_web_for_claim_returns c t tc s0) as (found & s1 & Hsearch);
        rewrite (bind_returns _ k _ _ _ Hsearch)
    end.
    destruct (verify_claim_returns d found openai_client s1 Hclaim)
      as (fields & s2 & Hverify & Hcases).
    rewrite (bind_returns _ _ _ _ _ Hverify).
    destruct (IH Hrest (idx + 1) total_claims (results ++ [VDict fields])%list s2)
      as (new & s' & Hloop & Hlen & Hturn).
    exists (VDict fields :: new), s'. split; [| split].
    + rewrite Hloop. rewrite <- app_assoc. reflexivity.
    + cbn [List.length]. rewrite Hlen. reflexivity.
    + cbn [verified_in_turn].
      exists d, fields, found, s1, s2.
      split; [reflexivity |]. split; [reflexivity |].
      split; [exact Hsearch |]. split; [exact Hverify |]. split; [| split].
      * destruct Hcases as [[e ->] | [verification Hv]]; [reflexivity |].
        destruct (verdict_result_fields _ _ _ _ _ Hv) as (vd & sources & _ & _ & Hr).
        injection Hr as ->. reflexivity.
      * intros e He.
        destruct (verify_claim_on_failure d found openai_client s1 e Hclaim He)
          as [s2' Hfail].
        rewrite Hfail in Hverify. injection Hverify as <- _. reflexivity.
      * exact Hturn.
Qed.

(** C2 (as amended).  The loop of [main] returns one result for every
    claim, in the order of the claims, and it makes them in turn: for
    each claim one run of [search_web_for_claim], from the state the
    loop has reached, and one run of [verify_claim] on that claim and on
    what that search found, from the state the search left; the result
    of that run is the claim's result, it carries the text of the claim,
    and the next claim starts from the state that run left.  The result
    has status ["ERROR"] whenever the verification call for the claim
    raised or its reply did not decode. *)
Theorem verify_all_one_result_per_claim
    (claims : list value) (openai_client : OpenAI) (tavily_client : TavilyClient)
    (s : state) :
  forallb claim_ok claims = true ->
  exists results s',
    verify_all claims openai_client tavily_client s = (inr results, s') /\
    List.length results = List.length claims /\
    verified_in_turn openai_client tavily_client 0 (Z.of_nat (List.length claims))
      claims results s s'.
Proof.
  intros Hok.
  destruct (verify_loop_in_turn openai_client tavily_client claims Hok
              0 (Z.of_nat (List.length claims)) [] s) as (new & s' & Hloop & Hlen & Hturn).
  exists new, s'. split; [exact Hloop |]. split; [exact Hlen | exact Hturn].
Qed.

(** *** [main] *)

Lemma extract_text_from_pdf_run (pdf : pdf_file) (s : state) :
  extract_text_from_pdf pdf s =
  match rbind pdf (fun pages => pages_loop pages "") with
  | inr text => (inr text, s)
  | inl e => (inr "", record_event (StError ("Error extracting text from PDF: " ++ exn_str e)) s)
  end.
Proof.
  unfold extract_text_from_pdf, try_except. step_lift.
  destruct pdf as [e | pages]; cbn [rbind]; [reflexivity |].
  rewrite lift_run. destruct (pages_loop pages ""); reflexivity.
Qed.

(** Pages without text add nothing to the text of the document. *)
Lemma pages_loop_unreadable (pages : list (result (option string))) (text : string) :
  Forall (fun page => page = inr None \/ page = inr (Some "")) pages ->
  pages_loop pages text = inr text.
Proof.
  induction 1 as [| page rest [-> | ->] _ IH]; cbn; auto.
Qed.

(** A document that cannot be opened, or whose pages have no text, has
    the empty text. *)
Lemma extract_text_from_pdf_unreadable (pdf : pdf_file) (s : state) :
  match pdf with
  | inl _ => True
  | inr pages => Forall (fun page => page = inr None \/ page = inr (Some "")) pages
  end ->
  fst (extract_text_from_pdf pdf s) = inr "".
Proof.
  rewrite extract_text_from_pdf_run.
  destruct pdf as [e | pages]; cbn [rbind]; [reflexivity |].
  intros H. rewrite (pages_loop_unreadable _ _ H). reflexivity.
Qed.

(** The preview of the claims goes through only for claims that
    [verify_claim] can report on. *)
Lemma claims_preview_ok (claims : list value) :
  forall i s s',
    claims_preview i claims s = (inr tt, s') -> forallb claim_ok claims = true.
Proof.
  induction claims as [| claim rest IH]; intros i s s' H; [reflexivity |].
  cbn [claims_preview forallb] in H |- *.
  unfold claim_preview in H.
  destruct claim as [| b | n | q | t | l | d]; try discriminate H.
  cbn [py_get rbind claim_ok] in H |- *.
  assert (Hsame : sliceable (dict_get_default "claim" (VStr "") d)
                  = sliceable (dict_get_default "claim" (VStr "N/A") d)).
  { unfold dict_get_default. destruct (dict_get "claim" d); reflexivity. }
  rewrite Hsame.
  destruct (dict_get_default "claim" (VStr "N/A") d) as [| b | n | q | t | l | d'];
    try discriminate H; cbn [py_slice_to rbind sliceable andb] in H |- *;
    revert H; step_lift; rewrite bind_emit; step_lift; rewrite bind_emit;
    apply IH.
Qed.

(** C8.  When a file is uploaded and the text extracted from it is
    empty, the run of [main] ends with [st.stop()] after notices of
    errors or warnings only: no chat call is made, the services are left
    as they were, and no results are stored. *)
Theorem main_halts_on_empty_text
    (env : environment) (page : page_input) (pdf : pdf_file) (s s1 : state) :
  uploaded_file page = Some pdf ->
  fst (extract_text_from_pdf pdf s1) = inr "" ->
  exists s' tail,
    main env page s = (inl StopException, s') /\
    trace s' = (trace s ++ tail)%list /\
    forallb is_notice tail = true /\
    world s' = world s /\
    verification_results s' = verification_results s.
Proof.
  intros Hfile Htext.
  assert (Hrun : forall s0, exists tail,
             extract_text_from_pdf pdf s0 =
               (inr "", {| world := world s0;
                           trace := (trace s0 ++ tail)%list;
                           verification_results := verification_results s0 |}) /\
             forallb is_notice tail = true).
  { intros s0. rewrite extract_text_from_pdf_run in Htext |- *.
    destruct (rbind pdf (fun pages => pages_loop pages "")) as [e | text].
    - eexists [_]. split; reflexivity.
    - cbn [fst] in Htext. injection Htext as ->.
      exists []. rewrite app_nil_r. destruct s0; split; reflexivity. }
  assert (Hstop : forall msg1 msg2 (k : option OpenAI * option TavilyClient -> M unit),
             (forall s0, k (None, None) s0 =
                         bind (emit (StWarning msg2)) (fun _ => raise StopException) s0) ->
             exists s' tail,
               bind (bind (emit (StError msg1)) (fun _ => ret (None, None))) k s
                 = (inl StopException, s') /\
               trace s' = (trace s ++ tail)%list /\
               forallb is_notice tail = true /\
               world s' = world s /\
               verification_results s' = verification_results s).
  { intros msg1 msg2 k Hk. unfold bind at 1. rewrite bind_emit. unfold ret.
    rewrite Hk. rewrite bind_emit. unfold raise.
    eexists. exists [StError msg1; StWarning msg2].
    split; [reflexivity |]. cbn [trace world verification_results record_event].
    rewrite <- app_assoc. repeat split. }
  unfold main, init_clients. rewrite Hfile.
  destruct (OPENAI_API_KEY env) as [[| c1 k1] |];
    [| destruct (TAVILY_API_KEY env) as [[| c2 k2] |] |];
    try (eapply Hstop; intros s0; reflexivity).
  unfold bind at 1. unfold ret at 1.
  destruct (Hrun s) as (tail & Hextract & Htail).
  rewrite (bind_returns _ _ _ _ _ Hextract). cbn [String.eqb].
  rewrite bind_emit. unfold raise.
  eexists.
  exists (tail ++ [StError "Could not extract text from PDF. Please ensure the PDF contains readable text."])%list.
  split; [reflexivity |].
  cbn [trace world verification_results record_event].
  rewrite <- ?app_assoc. split; [reflexivity |].
  split; [| split; reflexivity].
  rewrite forallb_app, Htail. reflexivity.
Qed.

(** *** The summary *)

Lemma key_eqb_str (key : string) (k : value) :
  key_eqb (VStr key) k = is_key key k.
Proof. destruct k; reflexivity. Qed.

Lemma key_eqb_same_key (key : string) (a b : value) :
  key_eqb a b = true -> is_key key a = is_key key b.
Proof.
  destruct a, b; cbn; try discriminate; try reflexivity.
  intros H. apply String.eqb_eq in H. subst. reflexivity.
Qed.

Lemma key_eqb_other_key (key : string) (a b : value) :
  key_eqb a b = false -> is_key key b = true -> is_key key a = false.
Proof.
  destruct a, b; cbn; try discriminate; try reflexivity.
  intros Hab Hb. apply String.eqb_eq in Hb. subst.
  destruct (String.eqb_spec s0 s); [| reflexivity].
  subst. rewrite String.eqb_refl in Hab. discriminate.
Qed.

Lemma counts_get_set (key : string) (st : value) (n : Z) (c : counts) :
  counts_get (VStr key) 0 (counts_set st n c) =
  if is_key key st then n else counts_get (VStr key) 0 c.
Proof.
  induction c as [| [k m] c IH]; cbn [counts_set counts_get].
  - rewrite key_eqb_str. reflexivity.
  - destruct (key_eqb st k) eqn:Hk; cbn [counts_get]; rewrite key_eqb_str.
    + rewrite (key_eqb_same_key key _ _ Hk). destruct (is_key key k); reflexivity.
    + rewrite IH. destruct (is_key key k) eqn:Hkey; [| reflexivity].
      rewrite (key_eqb_other_key key _ _ Hk Hkey). reflexivity.
Qed.

Lemma is_key_eq (key : string) (st : value) :
  is_key key st = true -> st = VStr key.
Proof.
  destruct st; cbn; try discriminate.
  intros H. apply String.eqb_eq in H. congruence.
Qed.

Lemma count_status_cons (key : string) (r : value) (results : list value) :
  count_status key (r :: results) =
  (if has_status key r then 1 else 0) + count_status key results.
Proof.
  unfold count_status. cbn [filter].
  destruct (has_status key r); cbn [List.length]; lia.
Qed.

(** The loop of lines 337-339 counts, under every string, the results
    with that status. *)
Lemma count_statuses_spec (key : string) (results : list value) :
  forallb result_ok results = true ->
  forall c, exists c',
    count_statuses results c = inr c' /\
    counts_get (VStr key) 0 c' = counts_get (VStr key) 0 c + count_status key results.
Proof.
  induction results as [| r rest IH]; intros Hok c.
  - exists c. split; [reflexivity |]. unfold count_status. cbn. lia.
  - cbn [forallb] in Hok. apply andb_prop in Hok as [Hr Hrest].
    destruct r as [| b | n | q | t | l | d]; try discriminate Hr.
    cbn [result_ok] in Hr.
    cbn [count_statuses py_get rbind]. rewrite Hr.
    destruct (IH Hrest (counts_set (dict_get_default "status" (VStr "UNKNOWN") d)
                          (counts_get (dict_get_default "status" (VStr "UNKNOWN") d) 0 c + 1)
                          c)) as (c' & Hrun & Hget).
    exists c'. split; [exact Hrun |].
    rewrite Hget, counts_get_set, count_status_cons. cbn [has_status].
    destruct (is_key key (dict_get_default "status" (VStr "UNKNOWN") d)) eqn:Hkey;
      [| lia].
    rewrite (is_key_eq _ _ Hkey). lia.
Qed.



Lemma record_events_app (shown more : list event) (s : state) :
  record_events (shown ++ more) s = record_events more (record_events shown s).
Proof. unfold record_events. apply fold_left_app. Qed.

Lemma record_events_trace (shown : list event) (s : state) :
  trace (record_events shown s) = (trace s ++ shown)%list.
Proof.
  revert s; induction shown as [| e shown IH]; intros s; cbn [record_events fold_left].
  - rewrite app_nil_r. reflexivity.
  - change (fold_left (fun s0 e0 => record_event e0 s0) shown (record_event e s))
      with (record_events shown (record_event e s)).
    rewrite IH. cbn [trace record_event]. rewrite <- app_assoc. reflexivity.
Qed.

Lemma skipn_length_app {A : Type} (l more : list A) :
  skipn (List.length l) (l ++ more) = more.
Proof. induction l as [| a l IH]; [reflexivity | exact IH]. Qed.

Lemma percent_of_positive (n total : Z) :
  0 < total ->
  percent_of n total
  = inr (float_mul_int (SFdiv 53 1024 (int_operand n) (int_operand total)) 100).
Proof.
  intros H. unfold percent_of, int_truediv.
  destruct (Z.eqb_spec total 0); [lia | reflexivity].
Qed.

Lemma status_metric_run (label key : string) (c : counts) (total : Z) (s : state) :
  0 < total ->
  status_metric label key c total s =
  (inr tt,
   record_event
     (StMetric label (counts_get (VStr key) 0 c)
        (Some (percent_text (counts_get (VStr key) 0 c) total))) s).
Proof.
  intros H. unfold status_metric. cbv zeta. step_lift.
  rewrite (percent_of_positive _ _ H). reflexivity.
Qed.

(** No division by zero in the summary of a list that is not empty,
    whatever the results are. *)
Lemma show_summary_no_zero_division (results : list value) (s : state) (cls msg : string) :
  results <> [] ->
  fst (show_summary results s) = inl (Exception (PyException cls msg)) ->
  cls = "TypeError" \/ cls = "AttributeError".
Proof.
  intros Hne. unfold show_summary. step_lift.
  assert (Hcount : forall rs c e, count_statuses rs c = inl e ->
                     exists m, e = PyException "TypeError" m
                               \/ e = PyException "AttributeError" m).
  { induction rs as [| r rest IH]; intros c e; [discriminate |].
    cbn [count_statuses].
    destruct r as [| b | n | q | t | l | d]; cbn [py_get rbind];
      try (intros H; injection H as <-; eexists; right; reflexivity).
    destruct (hashable (dict_get_default "status" (VStr "UNKNOWN") d)).
    - apply IH.
    - intros H; injection H as <-. eexists; left; reflexivity. }
  destruct (count_statuses results []) as [e | c] eqn:Hc.
  - cbn [fst]. intros H. injection H as ->.
    destruct (Hcount _ _ _ Hc) as [m [Hm | Hm]]; injection Hm as -> _; auto.
  - assert (Hpos : 0 < Z.of_nat (List.length results)).
    { destruct results; [contradiction | cbn [List.length]; lia]. }
    rewrite bind_emit.
    rewrite (bind_returns _ _ _ _ _ (status_metric_run _ _ _ _ _ Hpos)).
    rewrite (bind_returns _ _ _ _ _ (status_metric_run _ _ _ _ _ Hpos)).
    rewrite (status_metric_run _ _ _ _ _ Hpos). discriminate.
Qed.

Lemma show_summary_run (results : list value) (s : state) :
  results <> [] ->
  forallb result_ok results = true ->
  show_summary results s = (inr tt, record_events (summary_events results) s).
Proof.
  intros Hne Hok.
  assert (Hpos : 0 < Z.of_nat (List.length results)).
  { destruct results; [contradiction | cbn [List.length]; lia]. }
  destruct (count_statuses_spec "VERIFIED" results Hok []) as (c & Hc & Hv).
  destruct (count_statuses_spec "INACCURATE" results Hok []) as (c1 & Hc1 & Hi).
  destruct (count_statuses_spec "FALSE" results Hok []) as (c2 & Hc2 & Hf).
  rewrite Hc in Hc1, Hc2. injection Hc1 as <-. injection Hc2 as <-.
  cbn [counts_get] in Hv, Hi, Hf. rewrite Z.add_0_l in Hv, Hi, Hf.
  unfold show_summary. step_lift. rewrite Hc. rewrite bind_emit.
  rewrite (bind_returns _ _ _ _ _ (status_metric_run _ _ _ _ _ Hpos)).
  rewrite (bind_returns _ _ _ _ _ (status_metric_run _ _ _ _ _ Hpos)).
  rewrite (status_metric_run _ _ _ _ _ Hpos).
  rewrite Hv, Hi, Hf. reflexivity.
Qed.


(** ** Further properties of the code *)

(** *** [extract_claims], [extract_text_from_pdf], [init_clients] *)

(** X1.  [extract_claims] never raises.  It leaves the stored results
    alone and moves the services by its one chat call.  When the call
    raises, or its reply does not decode (a reply without content is one
    such), it returns the empty list and its last notice is an error
    that ends with the text of the exception. *)
Theorem extract_claims_fails_soft (text : string) (openai_client : OpenAI) (s : state) :
  exists claims s',
    extract_claims text openai_client s = (inr claims, s') /\
    verification_results s' = verification_results s /\
    world s' = snd (chat_completions_create openai_client
                      (extraction_request (analyzed_text text)) (world s)) /\
    (forall e,
       rbind (fst (chat_completions_create openai_client
                     (extraction_request (analyzed_text text)) (world s)))
         json_loads_content = inl e ->
       claims = [] /\
       exists before prefix,
         trace s' = (before ++ [StError (prefix ++ exn_str e)])%list).
Proof.
  pose proof (extract_claims_run text openai_client s) as Hrun. cbv zeta in Hrun.
  destruct (rbind _ json_loads_content) as [e | parsed] eqn:Hreply in Hrun.
  - do 2 eexists. split; [exact Hrun |].
    split; [destruct (py_len text >? max_text_length); reflexivity |].
    split; [reflexivity |].
    intros e' He'. rewrite Hreply in He'. injection He' as <-.
    split; [reflexivity |].
    destruct e; cbn [extraction_error trace record_event]; do 2 eexists; reflexivity.
  - do 2 eexists. split; [exact Hrun |].
    split; [destruct (py_len text >? max_text_length); reflexivity |].
    split; [reflexivity |].
    intros e' He'. rewrite Hreply in He'. discriminate He'.
Qed.

Lemma pages_loop_readable (texts : list (option string)) (text : string) :
  pages_loop (map inr texts) text = inr (text ++ join (page_lines texts)).
Proof.
  revert text; induction texts as [| page_text rest IH]; intros text.
  - cbn. rewrite str_app_empty_r. reflexivity.
  - cbn [map pages_loop rbind].
    destruct page_text as [t |]; [destruct (String.eqb t "") eqn:Ht |];
      cbn [page_lines flat_map] in *; rewrite ?Ht; rewrite IH; cbn [app join fold_right];
      rewrite ?str_app_assoc; reflexivity.
Qed.

(** X2.  When the file opens and no page raises, the text of the
    document is the texts of its pages in order, each followed by a
    newline; pages without text ([None] or the empty string) add nothing.
    Nothing is shown and no state changes. *)
Theorem extract_text_from_pdf_joins_pages (texts : list (option string)) (s : state) :
  extract_text_from_pdf (inr (map inr texts)) s = (inr (join (page_lines texts)), s).
Proof.
  rewrite extract_text_from_pdf_run. cbn [rbind].
  rewrite pages_loop_readable. reflexivity.
Qed.

Lemma pages_loop_failure (before : list (option string)) (e : exception)
    (after : list (result (option string))) (text : string) :
  pages_loop (map inr before ++ inl e :: after)%list text = inl e.
Proof.
  revert text; induction before as [| page_text rest IH]; intros text; [reflexivity |].
  cbn [map app pages_loop rbind].
  destruct page_text as [t |]; [destruct (String.eqb t "") |]; apply IH.
Qed.

(** X3.  When a page raises, the whole text is lost: the function
    returns the empty string, whatever the pages before gave, and shows
    one error with the text of the exception. *)
Theorem extract_text_from_pdf_page_failure
    (before : list (option string)) (e : exception)
    (after : list (result (option string))) (s : state) :
  extract_text_from_pdf (inr (map inr before ++ inl e :: after)%list) s =
  (inr "", record_event (StError ("Error extracting text from PDF: " ++ exn_str e)) s).
Proof.
  rewrite extract_text_from_pdf_run. cbn [rbind].
  rewrite pages_loop_failure. reflexivity.
Qed.

Lemma main_with_clients (env : environment) (page : page_input) (s : state) :
  main env page s = bind (init_clients env) (fun clients => with_clients clients page) s.
Proof. reflexivity. Qed.

Lemma init_clients_shows (env : environment) :
  exists clients shown,
    forall s, init_clients env s = (inr clients, record_events shown s).
Proof.
  unfold init_clients.
  destruct (OPENAI_API_KEY env) as [[| c1 k1] |];
    [| destruct (TAVILY_API_KEY env) as [[| c2 k2] |] |];
    do 2 eexists; intros s; unfold bind, emit, ret;
    try (instantiate (1 := [_]); reflexivity).
  instantiate (1 := []). reflexivity.
Qed.

(** Every run of the script in a process is a run of [main] in the
    environment of the first run: the first run fills the cache of
    [init_clients], and the later runs take the clients and the notice
    from it, whatever the environment has become. *)
Lemma run_script_first_environment (env : environment) :
  exists kept,
    (forall page s, run_script None env page s = (main env page s, Some kept)) /\
    (forall later_env page s,
       run_script (Some kept) later_env page s = (main env page s, Some kept)).
Proof.
  destruct (init_clients_shows env) as (clients & shown & Hrun).
  exists (clients, shown). split.
  - intros page s. unfold run_script, cached_init_clients, cache_resource.
    rewrite main_with_clients. unfold bind. rewrite Hrun.
    rewrite record_events_trace, skipn_length_app. reflexivity.
  - intros later_env page s. unfold run_script, cached_init_clients, cache_resource.
    rewrite main_with_clients. unfold bind. rewrite Hrun. reflexivity.
Qed.

(** X4.  [init_clients], which [@st.cache_resource] caches.  The first
    call in the process gives both clients, built from the two keys,
    when both keys are set, and shows nothing; otherwise it gives
    neither client and shows one error, which names the first key that
    is missing: OPENAI_API_KEY, and TAVILY_API_KEY when only that one is
    missing.  Every later call gives what the first call gave and shows
    what it showed, whatever the environment has become. *)
Theorem init_clients_both_or_none (env : environment) (s : state) :
  exists clients shown,
    init_clients env s = (inr clients, record_events shown s) /\
    cached_init_clients env None s
      = (inr (clients, Some (clients, shown)), record_events shown s) /\
    (forall later_env later,
       cached_init_clients later_env (Some (clients, shown)) later
       = (inr (clients, Some (clients, shown)), record_events shown later)) /\
    (key_set (OPENAI_API_KEY env) = false ->
     clients = (None, None) /\
     shown = [StError "OPENAI_API_KEY not found in environment variables"]) /\
    (key_set (OPENAI_API_KEY env) = true -> key_set (TAVILY_API_KEY env) = false ->
     clients = (None, None) /\
     shown = [StError "TAVILY_API_KEY not found in environment variables"]) /\
    (key_set (OPENAI_API_KEY env) = true -> key_set (TAVILY_API_KEY env) = true ->
     exists openai_key tavily_key,
       OPENAI_API_KEY env = Some openai_key /\
       TAVILY_API_KEY env = Some tavily_key /\
       clients = (Some (new_OpenAI env openai_key), Some (new_TavilyClient env tavily_key)) /\
       shown = []).
Proof.
  assert (Hmiss : forall e : event,
            skipn (List.length (trace s)) (trace (record_event e s)) = [e]).
  { intros e. cbn [trace record_event]. apply skipn_length_app. }
  assert (Hnone : skipn (List.length (trace s)) (trace s) = []).
  { rewrite <- (app_nil_r (trace s)) at 2. apply skipn_length_app. }
  unfold cached_init_clients, cache_resource, init_clients.
  destruct (OPENAI_API_KEY env) as [[| c1 k1] |];
    [| destruct (TAVILY_API_KEY env) as [[| c2 k2] |] |]; cbn [key_set];
    unfold bind, emit, ret; rewrite ?Hmiss, ?Hnone.
  - exists (None, None), [StError "OPENAI_API_KEY not found in environment variables"].
    repeat split; discriminate.
  - exists (None, None), [StError "TAVILY_API_KEY not found in environment variables"].
    repeat split; discriminate.
  - exists (Some (new_OpenAI env (String c1 k1)), Some (new_TavilyClient env (String c2 k2))), [].
    repeat split; try discriminate.
    intros _ _. do 2 eexists. repeat split.
  - exists (None, None), [StError "TAVILY_API_KEY not found in environment variables"].
    repeat split; discriminate.
  - exists (None, None), [StError "OPENAI_API_KEY not found in environment variables"].
    repeat split; discriminate.
Qed.

(** *** [get_status_color] and [get_status_emoji] *)

(** X5.  For a status that can be a key, the badge colour is not the
    grey of the default exactly when the status is one of the strings
    VERIFIED, INACCURATE and FALSE: ERROR, UNKNOWN and every other value
    are grey.  A status that cannot be a key (a list, a dictionary) makes
    both lookups raise. *)
Theorem get_status_color_three_colours (status : value) :
  (hashable status = true ->
   exists colour emoji,
     get_status_color status = inr colour /\
     get_status_emoji status = inr emoji /\
     (String.eqb colour "#6c757d" = false <->
      is_key "VERIFIED" status || is_key "INACCURATE" status || is_key "FALSE" status
      = true)) /\
  (hashable status = false ->
   get_status_color status = inl (unhashable status) /\
   get_status_emoji status = inl (unhashable status)).
Proof.
  split; intros H.
  - unfold get_status_color, get_status_emoji, table_get. rewrite H.
    do 2 eexists. split; [reflexivity |]. split; [reflexivity |].
    destruct status as [| b | n | q | t | l | d];
      try (cbn; split; discriminate).
    cbn [is_key find fst snd].
    rewrite (String.eqb_sym t "VERIFIED"), (String.eqb_sym t "INACCURATE"),
      (String.eqb_sym t "FALSE").
    destruct (String.eqb "VERIFIED" t); [cbn; split; reflexivity |].
    destruct (String.eqb "INACCURATE" t); [cbn; split; reflexivity |].
    destruct (String.eqb "FALSE" t); [cbn; split; reflexivity |].
    destruct (String.eqb t "ERROR"); [cbn; split; discriminate |].
    destruct (String.eqb t "UNKNOWN"); cbn; split; discriminate.
  - unfold get_status_color, get_status_emoji, table_get. rewrite H. split; reflexivity.
Qed.

(** *** [search_web_for_claim] *)

(** X6.  When the search call returns a dictionary, the function
    returns its ["results"] entry, or the empty list when it has none,
    with the query it sent, and shows nothing.  When the call returns
    anything else, that is handled as a failure: an error is shown and the
    results are empty. *)
Theorem search_web_for_claim_reply_shapes
    (claim claim_type : value) (tavily_client : TavilyClient) (s : state)
    (response : value) (w : World) :
  search tavily_client (search_request_for claim) (world s) = (inr response, w) ->
  (forall d, response = VDict d ->
     search_web_for_claim claim claim_type tavily_client s =
     (inr (VDict [("results", dict_get_default "results" (VList []) d);
                  ("query", VStr (format_value claim))]),
      set_world w (record_event (TavilySearch (search_request_for claim)) s))) /\
  (is_dict response = false ->
     search_web_for_claim claim claim_type tavily_client s =
     (inr (VDict [("results", VList []); ("query", claim)]),
      record_event
        (StError ("Error searching web: '" ++ type_name response
                  ++ "' object has no attribute 'get'"))
        (set_world w (record_event (TavilySearch (search_request_for claim)) s)))).
Proof.
  intros Hcall. rewrite search_web_for_claim_run. cbv zeta. rewrite Hcall.
  cbn [fst snd rbind]. split.
  - intros d ->. reflexivity.
  - intros Hd. destruct response; try discriminate Hd; reflexivity.
Qed.

(** *** [verify_claim] *)

Lemma verification_prompt_no_results (claim_text claim_type : value) :
  verification_prompt claim_text claim_type ""
  = verification_prompt claim_text claim_type "No search results found.".
Proof. reflexivity. Qed.

(** X7.  With no search results (the ["results"] entry absent or the
    empty list) the claim is still judged: the prompt sent says ["No
    search results found."], and when the reply decodes to a dictionary
    the result carries the status of the reply (["UNKNOWN"] when it has
    none) and no sources.  The absence of evidence is not an error. *)
Theorem verify_claim_without_evidence
    (d srd vd : dict) (openai_client : OpenAI) (s : state)
    (content : option string) (w : World) :
  dict_get "results" srd = None \/ dict_get "results" srd = Some (VList []) ->
  chat_completions_create openai_client
    (verification_request (dict_get_default "claim" (VStr "") d)
       (dict_get_default "type" (VStr "other") d) "No search results found.") (world s)
    = (inr content, w) ->
  json_loads_content content = inr (VDict vd) ->
  exists fields,
    verify_claim (VDict d) (VDict srd) openai_client s =
      (inr (VDict fields),
       set_world w
         (record_event
            (ChatCreate
               (verification_request (dict_get_default "claim" (VStr "") d)
                  (dict_get_default "type" (VStr "other") d) "No search results found."))
            s)) /\
    dict_get "status" fields = Some (dict_get_default "status" (VStr "UNKNOWN") vd) /\
    dict_get "sources" fields = Some (VList []).
Proof.
  intros Hresults Hcall Hparse.
  assert (Hctx : build_search_context (VDict srd) = inr "").
  { unfold build_search_context. cbn [py_get rbind]. unfold dict_get_default.
    destruct Hresults as [-> | ->]; reflexivity. }
  assert (Hsources : collect_sources (VDict srd) = inr []).
  { unfold collect_sources. cbn [py_get rbind]. unfold dict_get_default.
    destruct Hresults as [-> | ->]; reflexivity. }
  assert (Hreq : forall a b, verification_request a b ""
                             = verification_request a b "No search results found.").
  { intros a b. unfold verification_request.
    rewrite verification_prompt_no_results. reflexivity. }
  rewrite verify_claim_run. cbv zeta. rewrite Hctx, Hreq, Hcall.
  cbn [fst snd rbind]. rewrite Hparse. cbn [rbind].
  unfold verdict_result. cbn [py_get rbind]. rewrite Hsources. cbn [rbind].
  eexists. split; [reflexivity |]. split; reflexivity.
Qed.

(** X8.  When the context of the prompt cannot be built from the
    evidence (a result among the first three is not a dictionary, or its
    content has no slices, as with [None]), [verify_claim] makes no call
    at all: it shows one warning and returns the ERROR dictionary, the
    services untouched. *)
Theorem verify_claim_malformed_evidence
    (d : dict) (search_results : value) (openai_client : OpenAI) (s : state)
    (e : exception) :
  claim_ok (VDict d) = true ->
  build_search_context search_results = inl e ->
  exists warning,
    verify_claim (VDict d) search_results openai_client s =
    (inr (VDict (error_fields d (verification_error_text e))),
     record_event (StWarning warning) s).
Proof.
  intros Hok Hctx. cbn [claim_ok] in Hok.
  rewrite verify_claim_run. cbv zeta. rewrite Hctx.
  destruct (verification_failed_run d e s Hok) as [short ->].
  destruct e; eexists; reflexivity.
Qed.

(** X9.  When the context can be built, [verify_claim] makes exactly
    one chat call and no search call: what it adds to the trace is the
    request, followed by at most one warning, and the services are where
    that one call left them. *)
Theorem verify_claim_single_chat_call
    (d : dict) (search_results : value) (openai_client : OpenAI) (s : state)
    (search_context : string) :
  claim_ok (VDict d) = true ->
  build_search_context search_results = inr search_context ->
  let req := verification_request (dict_get_default "claim" (VStr "") d)
               (dict_get_default "type" (VStr "other") d) search_context in
  exists r s' tail,
    verify_claim (VDict d) search_results openai_client s = (inr r, s') /\
    trace s' = (trace s ++ ChatCreate req :: tail)%list /\
    (tail = [] \/ exists warning, tail = [StWarning warning]) /\
    world s' = snd (chat_completions_create openai_client req (world s)) /\
    verification_results s' = verification_results s.
Proof.
  intros Hok Hctx req. cbn [claim_ok] in Hok.
  rewrite verify_claim_run. cbv zeta. rewrite Hctx. fold req.
  destruct (rbind _ _) as [e | verified].
  - match goal with
    | |- context [verification_failed _ _ ?s1] =>
        destruct (verification_failed_run d e s1 Hok) as [short ->]
    end.
    do 2 eexists. exists [verification_warning short e].
    split; [reflexivity |]. cbn [trace record_event set_world].
    rewrite <- app_assoc. split; [reflexivity |].
    split; [right; destruct e; eexists; reflexivity |]. split; reflexivity.
  - do 2 eexists. exists []. split; [reflexivity |].
    split; [reflexivity |]. split; [left; reflexivity |]. split; reflexivity.
Qed.

(** X10.  Only the first three results of the evidence reach the
    prompt: the context built from a list of results is the context built
    from its first three. *)
Theorem build_search_context_first_three_only (srd : dict) (l : list value) :
  dict_get "results" srd = Some (VList l) ->
  build_search_context (VDict srd)
  = build_search_context (VDict [("results", VList (firstn 3 l))]).
Proof.
  intros Hresults. destruct l as [| r l].
  - unfold build_search_context. cbn [py_get rbind]. unfold dict_get_default.
    rewrite Hresults. reflexivity.
  - rewrite (build_search_context_first_three srd (r :: l) Hresults) by discriminate.
    rewrite (build_search_context_first_three
               [("results", VList (firstn 3 (r :: l)))] (firstn 3 (r :: l)) eq_refl)
      by discriminate.
    rewrite firstn_firstn. reflexivity.
Qed.

Lemma sources_loop_urls (items : list value) :
  forallb is_dict items = true ->
  sources_loop items = inr (flat_map source_url items).
Proof.
  induction items as [| r rest IH]; intros H; [reflexivity |].
  cbn [forallb] in H. apply andb_prop in H as [Hr Hrest].
  destruct r as [| b | n | q | t | l | sd]; try discriminate Hr.
  cbn [sources_loop py_get rbind flat_map source_url]. unfold dict_get_default.
  rewrite (IH Hrest).
  destruct (dict_get "url" sd) as [u |]; [| reflexivity].
  destruct (truthy u); reflexivity.
Qed.

(** X11.  The sources of a verdict are the ["url"] entries of the first
    three results, in their order, leaving out the results that have no
    such entry or an empty one (while the prompt shows ["N/A"] for
    these). *)
Theorem collect_sources_in_order (srd : dict) (l : list value) :
  dict_get "results" srd = Some (VList l) ->
  forallb is_dict (firstn 3 l) = true ->
  collect_sources (VDict srd) = inr (flat_map source_url (firstn 3 l)).
Proof.
  intros Hresults Hdicts. unfold collect_sources.
  cbn [py_get rbind]. unfold dict_get_default. rewrite Hresults.
  cbn [py_slice_to rbind py_iter]. exact (sources_loop_urls _ Hdicts).
Qed.

(** X12.  Every dictionary [verify_claim] returns, for a verdict or for
    an error, has the same seven keys in the same order. *)
Theorem verify_claim_result_keys
    (claim search_results : value) (openai_client : OpenAI) (s s' : state) (r : value) :
  verify_claim claim search_results openai_client s = (inr r, s') ->
  exists fields, r = VDict fields /\ map fst fields = result_keys.
Proof.
  intros Hrun.
  destruct (verify_claim_inverts _ _ _ _ _ _ Hrun)
    as (d & fields & _ & -> & [[e ->] | [verification Hv]]).
  - eexists. split; reflexivity.
  - destruct (verdict_result_fields _ _ _ _ _ Hv) as (vd & sources & _ & _ & Hr).
    injection Hr as ->. eexists. split; reflexivity.
Qed.

(** *** The verification loop, call by call *)

Ltac trace_simpl :=
  cbn [trace record_event set_world world verification_results];
  rewrite ?filter_app; cbn [filter is_chat is_search]; rewrite ?app_nil_r.

Lemma search_web_for_claim_searches (claim claim_type : value)
    (tavily_client : TavilyClient) (s : state) :
  exists found s',
    search_web_for_claim claim claim_type tavily_client s = (inr found, s') /\
    filter is_search (trace s') =
      (filter is_search (trace s) ++ [TavilySearch (search_request_for claim)])%list /\
    filter is_chat (trace s') = filter is_chat (trace s) /\
    verification_results s' = verification_results s.
Proof.
  rewrite search_web_for_claim_run. cbv zeta.
  destruct (rbind _ _); do 2 eexists; (split; [reflexivity |]); trace_simpl;
    repeat split.
Qed.

Lemma verify_claim_calls (d : dict) (search_results : value) (openai_client : OpenAI)
    (s : state) :
  sliceable (dict_get_default "claim" (VStr "") d) = true ->
  exists fields s',
    verify_claim (VDict d) search_results openai_client s = (inr (VDict fields), s') /\
    filter is_search (trace s') = filter is_search (trace s) /\
    (List.length (filter is_chat (trace s'))
     <= S (List.length (filter is_chat (trace s))))%nat /\
    verification_results s' = verification_results s.
Proof.
  intros Hs.
  destruct (verify_claim_returns d search_results openai_client s Hs)
    as (fields & s' & Hrun & _).
  exists fields, s'. split; [exact Hrun |].
  rewrite verify_claim_run in Hrun. cbv zeta in Hrun.
  destruct (build_search_context search_results) as [e | search_context].
  - destruct (verification_failed_run d e s Hs) as [short Hfailed].
    rewrite Hfailed in Hrun. injection Hrun as _ <-. trace_simpl.
    destruct e; cbn [verification_warning filter is_search is_chat];
      rewrite ?app_nil_r; repeat split; lia.
  - destruct (rbind _ _) as [e | verified] in Hrun.
    + match type of Hrun with
      | verification_failed _ _ ?s1 = _ =>
          destruct (verification_failed_run d e s1 Hs) as [short Hfailed]
      end.
      rewrite Hfailed in Hrun. injection Hrun as _ <-. trace_simpl.
      destruct e; cbn [verification_warning filter is_search is_chat];
        rewrite ?app_nil_r, ?length_app; cbn [List.length]; repeat split; lia.
    + injection Hrun as _ <-. trace_simpl.
      rewrite ?length_app; cbn [List.length]. repeat split; lia.
Qed.

Lemma verify_loop_searches (openai_client : OpenAI) (tavily_client : TavilyClient)
    (claims : list value) :
  forallb claim_ok claims = true ->
  forall idx total_claims results s,
  exists out s',
    verify_loop idx total_claims claims openai_client tavily_client results s
      = (inr out, s') /\
    filter is_search (trace s') =
      (filter is_search (trace s)
       ++ map (fun claim => TavilySearch (search_request_for (claim_text_of claim)))
            claims)%list /\
    (List.length (filter is_chat (trace s'))
     <= List.length (filter is_chat (trace s)) + List.length claims)%nat /\
    verification_results s' = verification_results s.
Proof.
  induction claims as [| claim rest IH]; intros Hok idx total_claims results s.
  - exists results, s. cbn [map List.length]. rewrite app_nil_r.
    repeat split; lia.
  - cbn [forallb] in Hok. apply andb_prop in Hok as [Hclaim Hrest].
    destruct claim as [| b | n | q | t | l | d]; try discriminate Hclaim.
    cbn [claim_ok] in Hclaim.
    cbn [verify_loop py_get]. rewrite !bind_emit. do 2 step_lift.
    match goal with
    | |- context [bind (search_web_for_claim ?c ?t ?tc) ?k ?s0] =>
        destruct (search_web_for_claim_searches c t tc s0)
          as (found & s1 & Hsearch & Hs1 & Hc1 & Hv1);
        rewrite (bind_returns _ k _ _ _ Hsearch)
    end.
    destruct (verify_claim_calls d found openai_client s1 Hclaim)
      as (fields & s2 & Hverify & Hs2 & Hc2 & Hv2).
    rewrite (bind_returns _ _ _ _ _ Hverify).
    destruct (IH Hrest (idx + 1) total_claims (results ++ [VDict fields])%list s2)
      as (out & s' & Hloop & Hs' & Hc' & Hv').
    exists out, s'. split; [exact Hloop |].
    revert Hs1 Hc1 Hv1. trace_simpl. intros Hs1 Hc1 Hv1.
    split; [| split].
    + rewrite Hs', Hs2, Hs1. cbn [map claim_text_of]. rewrite <- app_assoc. reflexivity.
    + rewrite Hc1 in Hc2. cbn [List.length]. lia.
    + rewrite Hv', Hv2, Hv1. reflexivity.
Qed.

(** X13.  The loop searches once for every claim, in the order of the
    claims and with the text of the claim as query; a text that occurs
    twice is searched twice.  It makes at most one chat call per claim
    and does not touch the stored results. *)
Theorem verify_all_searches_every_claim
    (claims : list value) (openai_client : OpenAI) (tavily_client : TavilyClient)
    (s : state) :
  forallb claim_ok claims = true ->
  exists results s',
    verify_all claims openai_client tavily_client s = (inr results, s') /\
    filter is_search (trace s') =
      (filter is_search (trace s)
       ++ map (fun claim => TavilySearch (search_request_for (claim_text_of claim)))
            claims)%list /\
    (List.length (filter is_chat (trace s'))
     <= List.length (filter is_chat (trace s)) + List.length claims)%nat /\
    verification_results s' = verification_results s.
Proof.
  intros Hok. unfold verify_all.
  exact (verify_loop_searches openai_client tavily_client claims Hok _ _ _ s).
Qed.

(** *** The summary, at its edges *)

(** X15.  The summary divides by zero exactly when the list of results
    is empty: there is no guard in the summary itself. *)
Theorem show_summary_zero_division_iff_empty (results : list value) (s : state) :
  fst (show_summary results s)
    = inl (Exception (PyException "ZeroDivisionError" "division by zero"))
  <-> results = [].
Proof.
  split.
  - intros H. destruct results as [| r rest]; [reflexivity |].
    destruct (show_summary_no_zero_division (r :: rest) s _ _ ltac:(discriminate) H)
      as [Hcls | Hcls]; discriminate Hcls.
  - intros ->. reflexivity.
Qed.

Lemma counts_set_total (k : value) (c : counts) :
  counts_total (counts_set k (counts_get k 0 c + 1) c) = counts_total c + 1.
Proof.
  induction c as [| [k' n'] c IH]; cbn [counts_set counts_get].
  - cbn. lia.
  - destruct (key_eqb k k'); unfold counts_total in *; cbn [fold_right snd]; lia.
Qed.

(** X16.  Every result is counted once: after the loop over the
    results the counts of all the statuses sum to the number of results. *)
Theorem count_statuses_total (results : list value) (status_counts : counts) :
  count_statuses results [] = inr status_counts ->
  counts_total status_counts = Z.of_nat (List.length results).
Proof.
  assert (H : forall rs c c', count_statuses rs c = inr c' ->
                              counts_total c' = counts_total c + Z.of_nat (List.length rs)).
  { induction rs as [| r rest IH]; intros c c' Hrun.
    - injection Hrun as <-. cbn [List.length]. lia.
    - cbn [count_statuses] in Hrun.
      destruct r as [| b | n | q | t | l | d]; try discriminate Hrun.
      cbn [py_get rbind] in Hrun.
      destruct (hashable (dict_get_default "status" (VStr "UNKNOWN") d));
        [| discriminate Hrun].
      rewrite (IH _ _ Hrun), counts_set_total. cbn [List.length]. lia. }
  intros Hrun. rewrite (H _ _ _ Hrun). reflexivity.
Qed.

Lemma count_statuses_unhashable (before : list value) (d : dict) (after : list value) :
  forallb result_ok before = true ->
  hashable (dict_get_default "status" (VStr "UNKNOWN") d) = false ->
  forall c,
    count_statuses (before ++ VDict d :: after)%list c
    = inl (unhashable (dict_get_default "status" (VStr "UNKNOWN") d)).
Proof.
  intros Hok Hd. induction before as [| r rest IH]; intros c.
  - cbn [app count_statuses py_get rbind]. rewrite Hd. reflexivity.
  - cbn [forallb] in Hok. apply andb_prop in Hok as [Hr Hrest].
    destruct r as [| b | n | q | t | l | d0]; try discriminate Hr.
    cbn [result_ok] in Hr.
    cbn [app count_statuses py_get rbind]. rewrite Hr. apply (IH Hrest).
Qed.

(** X17.  A status that cannot be a key (a list or a dictionary, which
    [verify_claim] passes on from the reply as it is) makes the summary
    raise a [TypeError] before anything is shown. *)
Theorem show_summary_unhashable_status
    (before : list value) (d : dict) (after : list value) (s : state) :
  forallb result_ok before = true ->
  hashable (dict_get_default "status" (VStr "UNKNOWN") d) = false ->
  show_summary (before ++ VDict d :: after)%list s
  = (inl (Exception (unhashable (dict_get_default "status" (VStr "UNKNOWN") d))), s).
Proof.
  intros Hok Hd. unfold show_summary. step_lift.
  rewrite (count_statuses_unhashable before d after Hok Hd). reflexivity.
Qed.

(** *** [main], step by step *)

Lemma quiet_refl (s : state) : quiet s s.
Proof. repeat split. Qed.

Lemma quiet_trans (s1 s2 s3 : state) : quiet s1 s2 -> quiet s2 s3 -> quiet s1 s3.
Proof.
  intros (Hw & Hv & Hc & Hs) (Hw' & Hv' & Hc' & Hs').
  repeat split; congruence.
Qed.

Lemma quiet_record_event (e : event) (s : state) :
  is_chat e || is_search e = false -> quiet s (record_event e s).
Proof.
  intros H. apply orb_false_elim in H as [Hc Hs].
  repeat split; cbn [trace record_event]; rewrite filter_app; cbn [filter];
    rewrite ?Hc, ?Hs; apply app_nil_r.
Qed.

Lemma extract_text_from_pdf_quiet (pdf : pdf_file) (s : state) :
  exists t s0, extract_text_from_pdf pdf s = (inr t, s0) /\ quiet s s0.
Proof.
  rewrite extract_text_from_pdf_run.
  destruct (rbind pdf _) as [e | t]; do 2 eexists; (split; [reflexivity |]).
  - apply quiet_record_event. reflexivity.
  - apply quiet_refl.
Qed.

Lemma extract_claims_calls (text : string) (openai_client : OpenAI) (s : state) :
  exists claims s',
    extract_claims text openai_client s = (inr claims, s') /\
    filter is_chat (trace s') =
      (filter is_chat (trace s)
       ++ [ChatCreate (extraction_request (analyzed_text text))])%list /\
    filter is_search (trace s') = filter is_search (trace s) /\
    verification_results s' = verification_results s.
Proof.
  rewrite extract_claims_run. cbv zeta.
  destruct (rbind _ json_loads_content) as [e | parsed];
    destruct (py_len text >? max_text_length);
    do 2 eexists; (split; [reflexivity |]); trace_simpl;
    try (destruct e; cbn [extraction_error filter is_chat is_search]);
    rewrite ?app_nil_r; repeat split.
Qed.

Lemma extract_claims_same_world (text : string) (openai_client : OpenAI) (s1 s2 : state) :
  world s1 = world s2 ->
  fst (extract_claims text openai_client s1) = fst (extract_claims text openai_client s2).
Proof.
  intros Hw. rewrite !extract_claims_run. cbv zeta. rewrite Hw.
  destruct (rbind _ json_loads_content); reflexivity.
Qed.

Lemma main_reaches_claims (env : environment) (page : page_input) (pdf : pdf_file)
    (openai_key tavily_key pdf_text : string) (s s0 : state) :
  OPENAI_API_KEY env = Some openai_key -> key_set (Some openai_key) = true ->
  TAVILY_API_KEY env = Some tavily_key -> key_set (Some tavily_key) = true ->
  uploaded_file page = Some pdf ->
  extract_text_from_pdf pdf s = (inr pdf_text, s0) ->
  pdf_text <> "" ->
  main env page s =
  bind (extract_claims pdf_text (new_OpenAI env openai_key))
    (present_claims page (new_OpenAI env openai_key) (new_TavilyClient env tavily_key))
    (record_event (StSuccess ("✅ Extracted " ++ str_of_Z (py_len pdf_text)
                              ++ " characters from PDF")) s0).
Proof.
  intros Hk1 Hset1 Hk2 Hset2 Hfile Htext Hne.
  unfold main, init_clients. rewrite Hk1, Hk2, Hfile.
  destruct openai_key as [| c1 k1]; [discriminate Hset1 |].
  destruct tavily_key as [| c2 k2]; [discriminate Hset2 |].
  unfold bind at 1. unfold ret at 1.
  rewrite (bind_returns _ _ _ _ _ Htext).
  destruct (String.eqb_spec pdf_text ""); [contradiction |].
  rewrite bind_emit. reflexivity.
Qed.

(** X18.  Without both keys [main] stops at once, whatever was
    uploaded or pressed: it shows the error that names the first key
    that is missing (OPENAI_API_KEY, and TAVILY_API_KEY when only that
    one is missing) and the hint to set up the keys, and nothing else
    happens.  The keys are those of the environment [init_clients] ran
    in, which is the environment of the first run in the process: a
    first run without both keys keeps that outcome in the cache, and
    every later run in the process stops in the same way, whatever the
    environment has become. *)
Theorem main_stops_without_keys (env : environment) (page : page_input) (s : state) :
  key_set (OPENAI_API_KEY env) && key_set (TAVILY_API_KEY env) = false ->
  main env page s =
  (inl StopException,
   record_event
     (StWarning "Please set up your API keys in the .env file. See README for instructions.")
     (record_event
        (StError ((if key_set (OPENAI_API_KEY env)
                   then "TAVILY_API_KEY" else "OPENAI_API_KEY")
                  ++ " not found in environment variables")) s)) /\
  exists kept,
    kept = ((None, None),
            [StError ((if key_set (OPENAI_API_KEY env)
                       then "TAVILY_API_KEY" else "OPENAI_API_KEY")
                      ++ " not found in environment variables")]) /\
    run_script None env page s = (main env page s, Some kept) /\
    (forall later_env later_page later,
       run_script (Some kept) later_env later_page later =
       ((inl StopException,
         record_event
           (StWarning "Please set up your API keys in the .env file. See README for instructions.")
           (record_event
              (StError ((if key_set (OPENAI_API_KEY env)
                         then "TAVILY_API_KEY" else "OPENAI_API_KEY")
                        ++ " not found in environment variables")) later)),
        Some kept)).
Proof.
  assert (Hmiss : forall e : event,
            skipn (List.length (trace s)) (trace (record_event e s)) = [e]).
  { intros e. cbn [trace record_event]. apply skipn_length_app. }
  unfold run_script, cached_init_clients, cache_resource, main, init_clients.
  destruct (OPENAI_API_KEY env) as [[| c1 k1] |];
    destruct (TAVILY_API_KEY env) as [[| c2 k2] |]; cbn [key_set andb];
    intros H; try discriminate H;
    (split; [reflexivity |]); eexists; (split; [reflexivity |]);
    unfold bind, emit, ret; rewrite ?Hmiss; split; reflexivity.
Qed.

(** X19.  When the document has a text and the extraction gives no
    claims (the oracle failed, its reply did not decode, or it listed
    none), [main] stops with the warning that no claims were found.  It
    made the one chat call of the extraction and no search, and stored
    nothing: results stored by an earlier run are not shown either. *)
Theorem main_stops_without_claims
    (env : environment) (page : page_input) (pdf : pdf_file)
    (openai_key tavily_key pdf_text : string) (s : state) :
  OPENAI_API_KEY env = Some openai_key -> key_set (Some openai_key) = true ->
  TAVILY_API_KEY env = Some tavily_key -> key_set (Some tavily_key) = true ->
  uploaded_file page = Some pdf ->
  fst (extract_text_from_pdf pdf s) = inr pdf_text ->
  pdf_text <> "" ->
  fst (extract_claims pdf_text (new_OpenAI env openai_key) s) = inr [] ->
  exists s' before,
    main env page s = (inl StopException, s') /\
    trace s' = (before ++ [StWarning "No verifiable claims found in the document."])%list /\
    filter is_chat (trace s') =
      (filter is_chat (trace s)
       ++ [ChatCreate (extraction_request (analyzed_text pdf_text))])%list /\
    filter is_search (trace s') = filter is_search (trace s) /\
    verification_results s' = verification_results s.
Proof.
  intros Hk1 Hset1 Hk2 Hset2 Hfile Htext Hne Hnone.
  destruct (extract_text_from_pdf_quiet pdf s) as (t & s0 & Hrun & Hw & Hv & Hc & Hs).
  rewrite Hrun in Htext. cbn [fst] in Htext. injection Htext as ->.
  rewrite (main_reaches_claims env page pdf openai_key tavily_key pdf_text s s0) by assumption.
  match goal with
  | |- context [bind (extract_claims ?t ?oc) ?k ?s1] =>
      destruct (extract_claims_calls t oc s1) as (claims & s2 & Hclaims & Hc2 & Hs2 & Hv2);
      rewrite (bind_returns _ k _ _ _ Hclaims);
      pose proof (extract_claims_same_world t oc s1 s) as Hsame
  end.
  rewrite Hclaims, Hnone in Hsame. cbn [fst world record_event] in Hsame.
  specialize (Hsame Hw). injection Hsame as ->.
  cbn [present_claims]. rewrite bind_emit. unfold raise.
  do 2 eexists. split; [reflexivity |].
  split; [reflexivity |].
  revert Hc2 Hs2 Hv2. trace_simpl. intros Hc2 Hs2 Hv2.
  rewrite Hc2, Hs2, Hv2, Hc, Hs, Hv. repeat split.
Qed.

Lemma claim_ok_preview_default (d : dict) :
  sliceable (dict_get_default "claim" (VStr "N/A") d)
  = sliceable (dict_get_default "claim" (VStr "") d).
Proof. unfold dict_get_default. destruct (dict_get "claim" d); reflexivity. Qed.

(** The preview shows two lines for a claim it can show and raises at
    the first claim it cannot; it makes no call. *)
Lemma claims_preview_outcome (claims : list value) :
  forall i s,
  exists r s',
    claims_preview i claims s = (r, s') /\ quiet s s' /\
    (forallb claim_ok claims = true -> r = inr tt) /\
    (forallb claim_ok claims = false -> exists e, r = inl (Exception e)).
Proof.
  induction claims as [| claim rest IH]; intros i s.
  - exists (inr tt), s. split; [reflexivity |]. split; [apply quiet_refl |].
    split; [reflexivity | discriminate].
  - cbn [claims_preview forallb]. unfold claim_preview. step_lift.
    destruct claim as [| b | n | q | t | l | d]; cbn [py_get rbind claim_ok andb];
      try (do 2 eexists; split; [reflexivity |]; split; [apply quiet_refl |];
           split; [discriminate | intros _; eexists; reflexivity]).
    rewrite <- claim_ok_preview_default.
    destruct (dict_get_default "claim" (VStr "N/A") d) as [| b | n | q | t | l | d'];
      cbn [py_slice_to rbind sliceable andb];
      try (do 2 eexists; split; [reflexivity |]; split; [apply quiet_refl |];
           split; [discriminate | intros _; eexists; reflexivity]);
      rewrite bind_emit; step_lift; rewrite bind_emit;
      match goal with
      | |- context [claims_preview ?j rest ?s2] =>
          destruct (IH j s2) as (r & s' & Hrun & Hquiet & Hok & Hbad)
      end;
      exists r, s'; (split; [exact Hrun |]);
      (split; [| split; assumption]);
      (eapply quiet_trans; [| exact Hquiet]);
      (eapply quiet_trans; apply quiet_record_event; reflexivity).
Qed.

(** X20.  With a text, claims that the preview can show and the button
    pressed, [main] verifies every claim, stores one result per claim,
    in the order of the claims, in the session, and ends the run by asking
    for a rerun: the results are shown by the next run, not by this one. *)
Theorem main_stores_results_and_reruns
    (env : environment) (page : page_input) (pdf : pdf_file)
    (openai_key tavily_key pdf_text : string) (claims : list value) (s : state) :
  OPENAI_API_KEY env = Some openai_key -> key_set (Some openai_key) = true ->
  TAVILY_API_KEY env = Some tavily_key -> key_set (Some tavily_key) = true ->
  uploaded_file page = Some pdf ->
  fst (extract_text_from_pdf pdf s) = inr pdf_text ->
  pdf_text <> "" ->
  fst (extract_claims pdf_text (new_OpenAI env openai_key) s) = inr claims ->
  claims <> [] ->
  forallb claim_ok claims = true ->
  verify_button page = true ->
  exists s' results,
    main env page s = (inl RerunException, s') /\
    verification_results s' = Some results /\
    Forall2 (verified_from (new_OpenAI env openai_key) (new_TavilyClient env tavily_key))
      claims results /\
    filter is_search (trace s') =
      (filter is_search (trace s)
       ++ map (fun claim => TavilySearch (search_request_for (claim_text_of claim)))
            claims)%list.
Proof.
  intros Hk1 Hset1 Hk2 Hset2 Hfile Htext Hne Hextract Hsome Hok Hbutton.
  destruct (extract_text_from_pdf_quiet pdf s) as (t & s0 & Hrun & Hw & Hv & Hc & Hs).
  rewrite Hrun in Htext. cbn [fst] in Htext. injection Htext as ->.
  rewrite (main_reaches_claims env page pdf openai_key tavily_key pdf_text s s0) by assumption.
  match goal with
  | |- context [bind (extract_claims ?t ?oc) ?k ?s1] =>
      destruct (extract_claims_calls t oc s1) as (claims' & s2 & Hclaims & Hc2 & Hs2 & Hv2);
      rewrite (bind_returns _ k _ _ _ Hclaims);
      pose proof (extract_claims_same_world t oc s1 s) as Hsame
  end.
  rewrite Hclaims, Hextract in Hsame. cbn [fst world record_event] in Hsame.
  specialize (Hsame Hw). injection Hsame as ->.
  destruct claims as [| claim rest]; [contradiction |].
  cbn [present_claims]. rewrite bind_emit. rewrite Hbutton.
  match goal with
  | |- context [bind (claims_preview ?j ?cs) ?k ?s3] =>
      destruct (claims_preview_outcome cs j s3)
        as (r & s4 & Hpreview & (Hw4 & Hv4 & Hc4 & Hs4) & Hreturns & _);
      rewrite (Hreturns Hok) in Hpreview;
      rewrite (bind_returns _ k _ _ _ Hpreview)
  end.
  unfold bind at 1. rewrite bind_emit.
  destruct (verify_loop_spec (new_OpenAI env openai_key) (new_TavilyClient env tavily_key)
              (claim :: rest) Hok 0 (Z.of_nat (List.length (claim :: rest))) []
              (record_event (StProgress 0 1) s4)) as (results & s5 & Hloop & Hall).
  destruct (verify_loop_searches (new_OpenAI env openai_key)
              (new_TavilyClient env tavily_key) (claim :: rest) Hok
              0 (Z.of_nat (List.length (claim :: rest))) []
              (record_event (StProgress 0 1) s4)) as (results' & s5' & Hloop' & Hs5 & _ & _).
  rewrite Hloop in Hloop'. injection Hloop' as <- <-.
  unfold verify_all. rewrite (bind_returns _ _ _ _ _ Hloop).
  rewrite !bind_emit. unfold bind, store_results, raise.
  eexists. exists results. split; [reflexivity |].
  split; [reflexivity |]. split; [exact Hall |].
  revert Hs5 Hs4 Hs2. trace_simpl. intros Hs5 Hs4 Hs2.
  rewrite Hs5, Hs4, Hs2, Hs. reflexivity.
Qed.

(** X21.  When the extraction gives a claim the preview cannot show (an
    item that is not a dictionary, or whose text is a number or [None]),
    the run of [main] ends with an exception no handler catches, before
    any search is made or any result is stored, pressed button or not. *)
Theorem main_crashes_at_preview
    (env : environment) (page : page_input) (pdf : pdf_file)
    (openai_key tavily_key pdf_text : string) (claims : list value) (s : state) :
  OPENAI_API_KEY env = Some openai_key -> key_set (Some openai_key) = true ->
  TAVILY_API_KEY env = Some tavily_key -> key_set (Some tavily_key) = true ->
  uploaded_file page = Some pdf ->
  fst (extract_text_from_pdf pdf s) = inr pdf_text ->
  pdf_text <> "" ->
  fst (extract_claims pdf_text (new_OpenAI env openai_key) s) = inr claims ->
  forallb claim_ok claims = false ->
  exists e s',
    main env page s = (inl (Exception e), s') /\
    filter is_search (trace s') = filter is_search (trace s) /\
    verification_results s' = verification_results s.
Proof.
  intros Hk1 Hset1 Hk2 Hset2 Hfile Htext Hne Hextract Hbad.
  destruct (extract_text_from_pdf_quiet pdf s) as (t & s0 & Hrun & Hw & Hv & Hc & Hs).
  rewrite Hrun in Htext. cbn [fst] in Htext. injection Htext as ->.
  rewrite (main_reaches_claims env page pdf openai_key tavily_key pdf_text s s0) by assumption.
  match goal with
  | |- context [bind (extract_claims ?t ?oc) ?k ?s1] =>
      destruct (extract_claims_calls t oc s1) as (claims' & s2 & Hclaims & Hc2 & Hs2 & Hv2);
      rewrite (bind_returns _ k _ _ _ Hclaims);
      pose proof (extract_claims_same_world t oc s1 s) as Hsame
  end.
  rewrite Hclaims, Hextract in Hsame. cbn [fst world record_event] in Hsame.
  specialize (Hsame Hw). injection Hsame as ->.
  destruct claims as [| claim rest]; [discriminate Hbad |].
  cbn [present_claims]. rewrite bind_emit.
  match goal with
  | |- context [bind (claims_preview ?j ?cs) ?k ?s3] =>
      destruct (claims_preview_outcome cs j s3)
        as (r & s4 & Hpreview & (Hw4 & Hv4 & Hc4 & Hs4) & _ & Hraises);
      destruct (Hraises Hbad) as [e ->]
  end.
  unfold bind at 1. rewrite Hpreview.
  exists e, s4. split; [reflexivity |].
  revert Hs4 Hv4 Hs2 Hv2. trace_simpl. intros Hs4 Hv4 Hs2 Hv2.
  rewrite Hs4, Hv4, Hs2, Hv2, Hs, Hv. split; reflexivity.
Qed.

(** *** Showing the results *)

(** [m] returns from every state, without a call and without storing. *)
Definition quiet_ok {A} (m : M A) : Prop :=
  forall s, exists a s', m s = (inr a, s') /\ quiet s s'.

Lemma quiet_ok_ret {A} (a : A) : quiet_ok (ret a).
Proof. intros s. exists a, s. split; [reflexivity | apply quiet_refl]. Qed.

Lemma quiet_ok_emit (e : event) : is_chat e || is_search e = false -> quiet_ok (emit e).
Proof.
  intros H s. exists tt, (record_event e s).
  split; [reflexivity | apply quiet_record_event; exact H].
Qed.

Lemma quiet_ok_bind {A B} (m : M A) (k : A -> M B) :
  quiet_ok m -> (forall a, quiet_ok (k a)) -> quiet_ok (bind m k).
Proof.
  intros Hm Hk s. destruct (Hm s) as (a & s1 & Hrun & Hq).
  destruct (Hk a s1) as (b & s2 & Hrun' & Hq').
  exists b, s2. rewrite (bind_returns _ _ _ _ _ Hrun).
  split; [exact Hrun' | eapply quiet_trans; eassumption].
Qed.

Lemma quiet_ok_bind_lift {A B} (r : result A) (a : A) (k : A -> M B) :
  r = inr a -> quiet_ok (k a) -> quiet_ok (bind (lift r) k).
Proof.
  intros -> Hk s. rewrite bind_lift. exact (Hk s).
Qed.

Lemma quiet_ok_sources_lines (sources : list value) : quiet_ok (sources_lines sources).
Proof.
  induction sources as [| source_url rest IH]; [apply quiet_ok_ret |].
  cbn [sources_lines]. apply quiet_ok_bind; [| intros _; exact IH].
  destruct (truthy source_url); [apply quiet_ok_emit; reflexivity | apply quiet_ok_ret].
Qed.

Lemma table_get_hashable (table : list (string * string)) (key : value) (default : string) :
  hashable key = true -> exists found, table_get table key default = inr found.
Proof. intros H. unfold table_get. rewrite H. eexists. reflexivity. Qed.

Lemma quiet_ok_show_result (idx : Z) (result : value) :
  renderable result = true -> quiet_ok (show_result idx result).
Proof.
  destruct result as [| b | n | q | t | l | d]; try discriminate.
  cbn [renderable]. intros H.
  apply andb_prop in H as [H Hsources]. apply andb_prop in H as [Hstatus Htype].
  unfold show_result. cbn [py_get].
  eapply quiet_ok_bind_lift; [reflexivity |].
  destruct (table_get_hashable
              [("VERIFIED", "✅"); ("INACCURATE", "⚠️"); ("FALSE", "❌");
               ("ERROR", "⚠️"); ("UNKNOWN", "❓")] _ "❓" Hstatus) as [emoji Hemoji].
  destruct (table_get_hashable
              [("VERIFIED", "#28a745"); ("INACCURATE", "#ffc107"); ("FALSE", "#dc3545");
               ("ERROR", "#6c757d"); ("UNKNOWN", "#6c757d")] _ "#6c757d" Hstatus)
    as [colour Hcolour].
  eapply quiet_ok_bind_lift; [exact Hemoji |].
  eapply quiet_ok_bind_lift; [exact Hcolour |].
  apply quiet_ok_bind; [apply quiet_ok_emit; reflexivity | intros _].
  eapply quiet_ok_bind_lift; [reflexivity |].
  apply quiet_ok_bind; [apply quiet_ok_emit; reflexivity | intros _].
  eapply quiet_ok_bind_lift; [reflexivity |].
  destruct (dict_get_default "type" (VStr "unknown") d) as [| b | n | q | t | l | d'];
    try discriminate Htype.
  eapply quiet_ok_bind_lift; [reflexivity |].
  apply quiet_ok_bind; [apply quiet_ok_emit; reflexivity | intros _].
  eapply quiet_ok_bind_lift; [reflexivity |].
  apply quiet_ok_bind; [apply quiet_ok_emit; reflexivity | intros _].
  eapply quiet_ok_bind_lift; [reflexivity |].
  apply quiet_ok_bind; [apply quiet_ok_emit; reflexivity | intros _].
  eapply quiet_ok_bind_lift; [reflexivity |].
  apply quiet_ok_bind;
    [destruct (truthy (dict_get_default "correct_info" VNone d));
     [apply quiet_ok_emit; reflexivity | apply quiet_ok_ret]
    | intros _].
  eapply quiet_ok_bind_lift; [reflexivity |].
  apply quiet_ok_bind; [| intros _; apply quiet_ok_emit; reflexivity].
  destruct (truthy (dict_get_default "sources" (VList []) d)) eqn:Htruthy;
    [| apply quiet_ok_ret].
  apply quiet_ok_bind; [apply quiet_ok_emit; reflexivity | intros _].
  destruct (dict_get_default "sources" (VList []) d) as [| b | n | q | t' | l | d'];
    try (rewrite Htruthy in Hsources; discriminate Hsources);
    try discriminate Htruthy;
    (eapply quiet_ok_bind_lift; [reflexivity | apply quiet_ok_sources_lines]).
Qed.

Lemma sources_lines_run (sources : list value) (s : state) :
  sources_lines sources s = (inr tt, record_events (source_lines sources) s).
Proof.
  revert s; induction sources as [| source_url rest IH]; intros s;
    cbn [sources_lines source_lines flat_map]; [reflexivity |].
  destruct (truthy source_url).
  - rewrite bind_emit. rewrite IH. reflexivity.
  - rewrite bind_ret. rewrite IH. reflexivity.
Qed.

Lemma show_result_run (idx : Z) (result : value) (s : state) :
  renderable result = true ->
  show_result idx result s = (inr tt, record_events (card idx result) s).
Proof.
  destruct result as [| b | n | q | t | l | d]; try discriminate.
  cbn [renderable]. intros H.
  apply andb_prop in H as [H Hsources]. apply andb_prop in H as [Hstatus Htype].
  unfold show_result, card. cbn [py_get]. step_lift.
  unfold get_status_emoji, get_status_color, table_get. rewrite Hstatus.
  do 2 step_lift. rewrite bind_emit. step_lift. rewrite bind_emit. step_lift.
  destruct (dict_get_default "type" (VStr "unknown") d) as [| b | n | q | t | l | d'];
    try discriminate Htype.
  cbn [py_title]. step_lift. rewrite bind_emit. step_lift. rewrite bind_emit.
  step_lift. rewrite bind_emit. step_lift.
  rewrite !record_events_app. cbn [record_events fold_left].
  match goal with
  | |- bind (if ?c then _ else _) _ _ = _ =>
      destruct c; cbv iota; [rewrite bind_emit | rewrite bind_ret]
  end; step_lift; cbn [fold_left app].
  all: destruct (truthy (dict_get_default "sources" (VList []) d)) eqn:Htruthy;
    cbv iota; [| rewrite bind_ret; reflexivity].
  all: rewrite bind_assoc, bind_emit, bind_assoc.
  all: destruct (dict_get_default "sources" (VList []) d) as [| b | n | q | t' | l | d'];
    try (rewrite Htruthy in Hsources; discriminate Hsources);
    try discriminate Htruthy; cbn [py_iter]; step_lift;
    rewrite (bind_returns _ _ _ _ _ (sources_lines_run _ _));
    reflexivity.
Qed.

Lemma show_results_quiet (results : list value) :
  forallb renderable results = true ->
  forall idx s, exists s', show_results idx results s = (inr tt, s') /\ quiet s s'.
Proof.
  induction results as [| r rest IH]; intros H idx s.
  - exists s. split; [reflexivity | apply quiet_refl].
  - cbn [forallb] in H. apply andb_prop in H as [Hr Hrest].
    cbn [show_results].
    destruct (quiet_ok_show_result idx r Hr s) as ([] & s1 & Hrun & Hq).
    rewrite (bind_returns _ _ _ _ _ Hrun).
    destruct (IH Hrest (idx + 1) s1) as (s' & Hrun' & Hq').
    exists s'. split; [exact Hrun' | eapply quiet_trans; eassumption].
Qed.

Lemma show_results_run (results : list value) :
  forallb renderable results = true ->
  forall idx s, show_results idx results s = (inr tt, record_events (cards idx results) s).
Proof.
  induction results as [| r rest IH]; intros H idx s; [reflexivity |].
  cbn [forallb] in H. apply andb_prop in H as [Hr Hrest].
  cbn [show_results cards].
  rewrite (bind_returns _ _ _ _ _ (show_result_run idx r s Hr)).
  rewrite (IH Hrest). rewrite record_events_app. reflexivity.
Qed.

(** X22.  The cards of results that have a hashable status, a string
    for type and sources that can be iterated are all shown: the
    rendering returns, and what it adds to the page is the card of each
    result, in the order of the results and numbered from the index it
    was given: heading with the emoji, the number and the status, then
    claim, type, confidence and explanation, the correct information
    and the sources when there are some, and a closing rule.  It makes
    no call and stores nothing. *)
Theorem show_results_renders (results : list value) (idx : Z) (s : state) :
  forallb renderable results = true ->
  exists s',
    show_results idx results s = (inr tt, s') /\
    trace s' = (trace s ++ cards idx results)%list /\
    world s' = world s /\
    verification_results s' = verification_results s /\
    filter is_chat (trace s') = filter is_chat (trace s) /\
    filter is_search (trace s') = filter is_search (trace s).
Proof.
  intros H. destruct (show_results_quiet results H idx s) as (s' & Hrun & Hquiet).
  exists s'. split; [exact Hrun |]. split; [| exact Hquiet].
  rewrite (show_results_run results H idx s) in Hrun. injection Hrun as <-.
  apply record_events_trace.
Qed.

(** X23.  A result whose type is not a string (the claim came with a
    number or [None] for its type, which the preview and [verify_claim]
    let through) cannot be shown: the card raises on [.title()] after its
    heading and its claim line. *)
Theorem show_result_non_string_type (idx : Z) (d : dict) (s : state) :
  hashable (dict_get_default "status" (VStr "UNKNOWN") d) = true ->
  (forall t, dict_get_default "type" (VStr "unknown") d <> VStr t) ->
  fst (show_result idx (VDict d) s)
  = inl (Exception (AttributeError (dict_get_default "type" (VStr "unknown") d) "title")).
Proof.
  intros Hstatus Htype. unfold show_result. cbn [py_get]. step_lift.
  unfold get_status_emoji, get_status_color, table_get. rewrite Hstatus.
  do 2 step_lift. rewrite bind_emit. step_lift. rewrite bind_emit. do 2 step_lift.
  destruct (dict_get_default "type" (VStr "unknown") d) as [| b | n | q | t | l | d'];
    try reflexivity.
  exfalso. apply (Htype t). reflexivity.
Qed.

Lemma quiet_ok_show_summary (results : list value) :
  results <> [] -> forallb result_ok results = true -> quiet_ok (show_summary results).
Proof.
  intros Hne Hok.
  assert (Hpos : 0 < Z.of_nat (List.length results)).
  { destruct results; [contradiction | cbn [List.length]; lia]. }
  destruct (count_statuses_spec "VERIFIED" results Hok []) as (c & Hc & _).
  assert (Hmetric : forall label key, quiet_ok
            (status_metric label key c (Z.of_nat (List.length results)))).
  { intros label key s0. do 2 eexists.
    split; [apply (status_metric_run _ _ _ _ _ Hpos) |].
    apply quiet_record_event. reflexivity. }
  unfold show_summary.
  eapply quiet_ok_bind_lift; [exact Hc |].
  apply quiet_ok_bind; [apply quiet_ok_emit; reflexivity | intros _].
  apply quiet_ok_bind; [apply Hmetric | intros _].
  apply quiet_ok_bind; [apply Hmetric | intros _]. apply Hmetric.
Qed.

Lemma renderable_result_ok (results : list value) :
  forallb renderable results = true -> forallb result_ok results = true.
Proof.
  induction results as [| r rest IH]; [reflexivity |].
  cbn [forallb]. intros H. apply andb_prop in H as [Hr Hrest].
  rewrite (IH Hrest), andb_true_r.
  destruct r; try discriminate Hr. cbn [renderable result_ok] in *.
  apply andb_prop in Hr as [Hr _]. apply andb_prop in Hr as [Hr _]. exact Hr.
Qed.

(** X24.  The run after a verification shows the stored results: with
    the button not pressed and results in the session that can be shown,
    [main] returns, and the page ends with the rule and the header of
    the results, the four metrics of the summary, the title of the
    details and the cards of the stored results, numbered from 1.
    Before that it extracts the claims of the document again, with one
    more chat call; it makes no search and leaves the stored results as
    they are. *)
Theorem main_shows_stored_results
    (env : environment) (page : page_input) (pdf : pdf_file)
    (openai_key tavily_key pdf_text : string) (claims results : list value) (s : state) :
  OPENAI_API_KEY env = Some openai_key -> key_set (Some openai_key) = true ->
  TAVILY_API_KEY env = Some tavily_key -> key_set (Some tavily_key) = true ->
  uploaded_file page = Some pdf ->
  fst (extract_text_from_pdf pdf s) = inr pdf_text ->
  pdf_text <> "" ->
  fst (extract_claims pdf_text (new_OpenAI env openai_key) s) = inr claims ->
  claims <> [] ->
  forallb claim_ok claims = true ->
  verify_button page = false ->
  verification_results s = Some results ->
  results <> [] ->
  forallb renderable results = true ->
  exists s' before,
    main env page s = (inr tt, s') /\
    trace s' = (before
                ++ [StMarkdown "---"; StHeader "📊 Verification Results"]
                ++ summary_events results
                ++ [StMarkdown "### Detailed Results"]
                ++ cards 1 results)%list /\
    filter is_chat (trace s') =
      (filter is_chat (trace s)
       ++ [ChatCreate (extraction_request (analyzed_text pdf_text))])%list /\
    filter is_search (trace s') = filter is_search (trace s) /\
    verification_results s' = Some results.
Proof.
  intros Hk1 Hset1 Hk2 Hset2 Hfile Htext Hne Hextract Hsome Hok Hbutton
    Hstored Hresults Hrender.
  destruct (extract_text_from_pdf_quiet pdf s) as (t & s0 & Hrun & Hw & Hv & Hc & Hs).
  rewrite Hrun in Htext. cbn [fst] in Htext. injection Htext as ->.
  rewrite (main_reaches_claims env page pdf openai_key tavily_key pdf_text s s0) by assumption.
  match goal with
  | |- context [bind (extract_claims ?t ?oc) ?k ?s1] =>
      destruct (extract_claims_calls t oc s1) as (claims' & s2 & Hclaims & Hc2 & Hs2 & Hv2);
      rewrite (bind_returns _ k _ _ _ Hclaims);
      pose proof (extract_claims_same_world t oc s1 s) as Hsame
  end.
  rewrite Hclaims, Hextract in Hsame. cbn [fst world record_event] in Hsame.
  specialize (Hsame Hw). injection Hsame as ->.
  destruct claims as [| claim rest]; [contradiction |].
  cbn [present_claims]. rewrite bind_emit. rewrite Hbutton.
  match goal with
  | |- context [bind (claims_preview ?j ?cs) ?k ?s3] =>
      destruct (claims_preview_outcome cs j s3)
        as (r & s4 & Hpreview & (Hw4 & Hv4 & Hc4 & Hs4) & Hreturns & _);
      rewrite (Hreturns Hok) in Hpreview;
      rewrite (bind_returns _ k _ _ _ Hpreview)
  end.
  unfold bind at 1. unfold ret at 1. unfold bind at 1. unfold load_results at 1.
  assert (Hv4' : verification_results s4 = Some results).
  { revert Hv4 Hv2. trace_simpl. intros Hv4 Hv2. rewrite Hv4, Hv2, Hv. exact Hstored. }
  rewrite Hv4'.
  assert (Hshow : quiet_ok
            (bind (emit (StMarkdown "---"))
               (fun _ => bind (emit (StHeader "📊 Verification Results"))
                  (fun _ => bind (show_summary results)
                     (fun _ => bind (emit (StMarkdown "### Detailed Results"))
                        (fun _ => show_results 1 results)))))).
  { apply quiet_ok_bind; [apply quiet_ok_emit; reflexivity | intros _].
    apply quiet_ok_bind; [apply quiet_ok_emit; reflexivity | intros _].
    apply quiet_ok_bind;
      [apply quiet_ok_show_summary;
       [exact Hresults | apply renderable_result_ok; exact Hrender]
      | intros _].
    apply quiet_ok_bind; [apply quiet_ok_emit; reflexivity | intros _].
    intros s5. destruct (show_results_quiet results Hrender 1 s5) as (s6 & H6 & Hq6).
    exists tt, s6. split; assumption. }
  destruct (Hshow s4) as ([] & s' & Hfinal & (Hw' & Hv' & Hc' & Hs')).
  exists s', (trace s4). split; [exact Hfinal |].
  split.
  { rewrite !bind_emit in Hfinal.
    rewrite (bind_returns _ _ _ _ _
               (show_summary_run results _ Hresults
                  (renderable_result_ok results Hrender))) in Hfinal.
    rewrite bind_emit in Hfinal.
    rewrite (show_results_run results Hrender) in Hfinal.
    injection Hfinal as <-.
    rewrite !record_events_trace. cbn [trace record_event].
    rewrite <- !app_assoc. reflexivity. }
  revert Hc4 Hs4 Hc2 Hs2. trace_simpl. intros Hc4 Hs4 Hc2 Hs2.
  rewrite Hc', Hs', Hv', Hc4, Hs4, Hc2, Hs2, Hc, Hs. repeat split. exact Hv4'.
Qed.

End Properties.

(** ** The program on concrete inputs *)

(** The percentages are rounded twice, to the nearest float and then to
    the nearest tenth. *)
Example percent_text_rounds :
  percent_text 1 3 = "33.3%" /\ percent_text 2 3 = "66.7%" /\
  percent_text 3 3 = "100.0%" /\ percent_text 1 2000 = "0.1%" /\
  percent_text 1 400 = "0.2%" /\ percent_text 3 400 = "0.8%" /\
  percent_text 7 9 = "77.8%".
Proof. repeat split; vm_compute; reflexivity. Qed.



(** C2, counterexample: the search call for the claim raises, the judge
    answers FALSE, and the result appended for the claim has status
    FALSE, not ERROR. *)
Lemma search_failure_is_not_an_error_result :
  fst (search scripted_tavily (@search_request_for scripted gdp_text) (world judge_only))
    = inl connection_error /\
  fst (verify_all [gdp_claim] scripted_openai scripted_tavily judge_only)
    = inr [VDict [("claim", gdp_text); ("type", VStr "other"); ("status", VStr "FALSE");
                  ("explanation", VStr ""); ("correct_info", VNone);
                  ("confidence", VStr "MEDIUM"); ("sources", VList [])]].
Proof. split; vm_compute; reflexivity. Qed.

Lemma verify_all_one_result_per_claim_witness :
  forallb claim_ok [gdp_claim; VDict []] = true /\
  exists results s',
    verify_all [gdp_claim; VDict []] scripted_openai scripted_tavily judge_only
      = (inr results, s') /\
    List.length results = List.length [gdp_claim; VDict []] /\
    verified_in_turn scripted_openai scripted_tavily 0 2 [gdp_claim; VDict []] results
      judge_only s'.
Proof.
  split; [reflexivity |].
  apply (@verify_all_one_result_per_claim scripted [gdp_claim; VDict []]). reflexivity.
Defined.

Lemma extract_claims_normalizes_shapes_witness :
  chat_completions_create scripted_openai
    (extraction_request (analyzed_text "GDP report"))
    (world (start [inr (Some text_claims_one)] []))
    = (inr (Some text_claims_one), {| chat_replies := []; search_replies := [] |}) /\
  @json_loads_content scripted (Some text_claims_one)
    = inr (VDict [("claims", VList [gdp_claim])]) /\
  exists s',
    extract_claims "GDP report" scripted_openai (start [inr (Some text_claims_one)] [])
      = (inr [gdp_claim], s').
Proof.
  split; [reflexivity |]. split; [reflexivity |].
  destruct (@extract_claims_normalizes_shapes scripted "GDP report" scripted_openai
              (start [inr (Some text_claims_one)] []) (Some text_claims_one)
              {| chat_replies := []; search_replies := [] |}
              (VDict [("claims", VList [gdp_claim])]) eq_refl eq_refl)
    as (claims & s' & Hrun & _ & Hdict & _).
  exists s'. rewrite Hrun. rewrite (Hdict _ _ eq_refl eq_refl). reflexivity.
Defined.

Lemma verify_claim_reports_failure_witness :
  claim_ok gdp_claim = true /\
  @build_search_context scripted no_evidence = inr "" /\
  fst (chat_completions_create scripted_openai (gdp_request "") (world (start [] [])))
    = inl connection_error /\
  exists fields s' prefix,
    verify_claim gdp_claim no_evidence scripted_openai (start [] [])
      = (inr (VDict fields), s') /\
    dict_get "status" fields = Some (VStr "ERROR") /\
    dict_get "confidence" fields = Some (VStr "LOW") /\
    dict_get "sources" fields = Some (VList []) /\
    dict_get "explanation" fields = Some (VStr (prefix ++ "Connection error.")) /\
    (prefix = "Error parsing verification response: " \/
     prefix = "Error during verification: ").
Proof.
  split; [reflexivity |]. split; [reflexivity |]. split; [reflexivity |].
  apply (@verify_claim_reports_failure scripted
           [("claim", gdp_text)] no_evidence scripted_openai (start [] []) ""
           connection_error eq_refl eq_refl).
  left. reflexivity.
Defined.

Lemma verify_claim_sources_from_evidence_witness :
  claim_ok gdp_claim = true /\
  exists fields s' urls,
    verify_claim gdp_claim gdp_evidence scripted_openai judge_only
      = (inr (VDict fields), s') /\
    dict_get "sources" fields = Some (VList urls) /\
    (List.length urls <= 3)%nat.
Proof.
  split; [reflexivity |].
  destruct (@verify_claim_sources_from_evidence scripted
              gdp_claim gdp_evidence scripted_openai judge_only) as [Hreturns Hsources].
  destruct (Hreturns eq_refl) as (r & s' & Hrun).
  destruct (Hsources r s' Hrun) as (fields & urls & -> & Hurls & Hlen & _).
  exists fields, s', urls. split; [exact Hrun |]. split; [exact Hurls | exact Hlen].
Defined.

Lemma main_halts_on_empty_text_witness :
  fst (@extract_text_from_pdf scripted scanned_pdf (start [] [])) = inr "" /\
  exists s' tail,
    main scripted_env {| uploaded_file := Some scanned_pdf; verify_button := true |}
      judge_only = (inl StopException, s') /\
    trace s' = (trace judge_only ++ tail)%list /\
    forallb is_notice tail = true /\
    world s' = world judge_only /\
    verification_results s' = verification_results judge_only.
Proof.
  split; [reflexivity |].
  apply (@main_halts_on_empty_text scripted scripted_env
           {| uploaded_file := Some scanned_pdf; verify_button := true |}
           scanned_pdf judge_only (start [] [])); reflexivity.
Defined.



Lemma verify_claim_keeps_claim_and_type_witness :
  claim_ok gdp_claim = true /\
  exists fields s',
    verify_claim gdp_claim no_evidence scripted_openai (start [] [])
      = (inr (VDict fields), s') /\
    dict_get "claim" fields = Some gdp_text /\
    dict_get "type" fields = Some (VStr "other").
Proof.
  split; [reflexivity |].
  destruct (@verify_claim_keeps_claim_and_type scripted
              gdp_claim no_evidence scripted_openai (start [] [])) as [Hreturns Hkeeps].
  destruct (Hreturns eq_refl) as (r & s' & Hrun).
  destruct (Hkeeps r s' Hrun) as (d & fields & Hd & -> & Hclaim & _ & _ & Htype).
  injection Hd as <-.
  exists fields, s'. split; [exact Hrun |].
  split; [apply Hclaim | apply Htype]; reflexivity.
Defined.

(** The program on a text of 8001 characters: the notice, then the one
    request, with the first 8000 characters in its prompt. *)
Example extract_claims_on_long_text :
  py_len long_text = 8001 /\
  trace (snd (extract_claims long_text scripted_openai
                (start [inr (Some text_claims_one)] [])))
    = [StInfo truncation_notice;
       ChatCreate (extraction_request (repeat_char (Z.to_nat 8000)))].
Proof. split; vm_compute; reflexivity. Qed.

(** Characters are counted, not bytes: a text of 4001 accented letters
    is sent whole, without a notice, and a slice ends where a character
    ends. *)
Example extract_claims_on_accented_text :
  py_len "é" = 1 /\
  Z.of_nat (String.length (accented_text 4001)) = 8002 /\
  py_len (accented_text 4001) = 4001 /\
  trace (snd (extract_claims (accented_text 4001) scripted_openai
                (start [inr (Some text_claims_one)] [])))
    = [ChatCreate (extraction_request (accented_text 4001))] /\
  str_slice_to 2 "héllo" = "hé" /\
  str_slice_to 300 (accented_text 400) = accented_text 300.
Proof. repeat split; vm_compute; reflexivity. Qed.

(** The clients of the first run stay in the cache: a later run in an
    environment without keys still has them, and does not stop. *)
Example cached_clients_outlive_the_keys :
  run_script None scripted_env {| uploaded_file := None; verify_button := false |}
    (start [] [])
    = ((inr tt, start [] []), Some ((Some scripted_openai, Some scripted_tavily), [])) /\
  run_script (Some ((Some scripted_openai, Some scripted_tavily), [])) no_keys
    {| uploaded_file := None; verify_button := false |} (start [] [])
    = ((inr tt, start [] []), Some ((Some scripted_openai, Some scripted_tavily), [])) /\
  fst (run_script None no_keys {| uploaded_file := None; verify_button := false |}
         (start [] []))
    = (inl StopException,
       record_event
         (StWarning "Please set up your API keys in the .env file. See README for instructions.")
         (record_event (StError "OPENAI_API_KEY not found in environment variables")
            (start [] []))).
Proof. repeat split. Qed.

(** The program on a claim whose search and verification both fail: an
    empty evidence, then an ERROR result. *)
Example verify_all_when_everything_fails :
  fst (verify_all [gdp_claim] scripted_openai scripted_tavily (start [] []))
    = inr [VDict (error_fields [("claim", gdp_text)]
                    "Error during verification: Connection error.")].
Proof. vm_compute. reflexivity. Qed.

(** Outside the claims the preview lets through, the [except] clause of
    [verify_claim] raises itself: the text of the claim is a number. *)
Example verify_claim_on_numeric_text :
  claim_ok (VDict [("claim", VInt 5)]) = false /\
  fst (verify_claim (VDict [("claim", VInt 5)]) no_evidence scripted_openai (start [] []))
    = inl (Exception (PyException "TypeError" "'int' object is not subscriptable")).
Proof. split; vm_compute; reflexivity. Qed.

(** ** The further properties on concrete inputs *)

Lemma search_web_for_claim_reply_shapes_witness :
  search scripted_tavily (@search_request_for scripted gdp_text)
    (world (start [] [inr (VList [])]))
    = (inr (VList []), {| chat_replies := []; search_replies := [] |}) /\
  fst (search_web_for_claim gdp_text (VStr "other") scripted_tavily
         (start [] [inr (VList [])]))
    = inr (VDict [("results", VList []); ("query", gdp_text)]).
Proof.
  split; [reflexivity |].
  destruct (@search_web_for_claim_reply_shapes scripted gdp_text (VStr "other")
              scripted_tavily (start [] [inr (VList [])]) (VList [])
              {| chat_replies := []; search_replies := [] |} eq_refl) as [_ Hother].
  rewrite (Hother eq_refl). reflexivity.
Defined.

Lemma verify_claim_without_evidence_witness :
  exists fields s',
    verify_claim gdp_claim no_evidence scripted_openai judge_only
      = (inr (VDict fields), s') /\
    dict_get "status" fields = Some (VStr "FALSE") /\
    dict_get "sources" fields = Some (VList []).
Proof.
  destruct (@verify_claim_without_evidence scripted
              [("claim", gdp_text)] [("results", VList []); ("query", gdp_text)]
              [("status", VStr "FALSE")] scripted_openai judge_only
              (Some text_status_false) {| chat_replies := []; search_replies := [] |}
              (or_intror eq_refl) eq_refl eq_refl)
    as (fields & Hrun & Hstatus & Hsources).
  exists fields. eexists. split; [exact Hrun |]. split; [exact Hstatus | exact Hsources].
Defined.

Lemma verify_claim_malformed_evidence_witness :
  @build_search_context scripted broken_evidence
    = inl (PyException "TypeError" "'NoneType' object is not subscriptable") /\
  exists warning,
    verify_claim gdp_claim broken_evidence scripted_openai judge_only =
    (inr (VDict (error_fields [("claim", gdp_text)]
                   "Error during verification: 'NoneType' object is not subscriptable")),
     record_event (StWarning warning) judge_only).
Proof.
  split; [reflexivity |].
  exact (@verify_claim_malformed_evidence scripted [("claim", gdp_text)] broken_evidence
           scripted_openai judge_only
           (PyException "TypeError" "'NoneType' object is not subscriptable")
           eq_refl eq_refl).
Defined.

Lemma verify_claim_single_chat_call_witness :
  exists r s' tail,
    verify_claim gdp_claim gdp_evidence scripted_openai judge_only = (inr r, s') /\
    trace s' = (trace judge_only ++ ChatCreate (gdp_request gdp_context) :: tail)%list /\
    (tail = [] \/ exists warning, tail = [StWarning warning]) /\
    world s' = snd (chat_completions_create scripted_openai (gdp_request gdp_context)
                      (world judge_only)) /\
    verification_results s' = verification_results judge_only.
Proof.
  exact (@verify_claim_single_chat_call scripted [("claim", gdp_text)] gdp_evidence
           scripted_openai judge_only gdp_context eq_refl eq_refl).
Defined.

Lemma build_search_context_first_three_only_witness :
  @build_search_context scripted (VDict [("results", VList four_results)])
  = @build_search_context scripted (VDict [("results", VList (firstn 3 four_results))]).
Proof.
  exact (@build_search_context_first_three_only scripted
           [("results", VList four_results)] four_results eq_refl).
Defined.

Lemma collect_sources_in_order_witness :
  forallb is_dict (firstn 3 four_results) = true /\
  collect_sources (VDict [("results", VList four_results)])
  = inr [VStr "https://example.org/1"; VStr "https://example.org/2"].
Proof.
  split; [reflexivity |].
  exact (collect_sources_in_order [("results", VList four_results)] four_results
           eq_refl eq_refl).
Defined.

Lemma verify_claim_result_keys_witness :
  exists fields,
    VDict (error_fields [("claim", gdp_text)] "Error during verification: Connection error.")
      = VDict fields /\
    map fst fields = result_keys.
Proof.
  apply (@verify_claim_result_keys scripted gdp_claim no_evidence scripted_openai
           (start [] [])
           (record_event (StWarning ("Error verifying claim: "
                                     ++ "The GDP of Country X was $5 trillion in 2020."
                                     ++ "... - Connection error."))
              (record_event (ChatCreate (gdp_request "")) (start [] [])))).
  reflexivity.
Defined.

Lemma verify_all_searches_every_claim_witness :
  forallb claim_ok [gdp_claim; gdp_claim] = true /\
  exists results s',
    verify_all [gdp_claim; gdp_claim] scripted_openai scripted_tavily judge_only
      = (inr results, s') /\
    filter is_search (trace s') =
      [TavilySearch (@search_request_for scripted gdp_text);
       TavilySearch (@search_request_for scripted gdp_text)].
Proof.
  split; [reflexivity |].
  destruct (@verify_all_searches_every_claim scripted [gdp_claim; gdp_claim]
              scripted_openai scripted_tavily judge_only eq_refl)
    as (results & s' & Hrun & Hsearches & _).
  exists results, s'. split; [exact Hrun | exact Hsearches].
Defined.

Lemma count_statuses_total_witness :
  count_statuses [verified_result_example; error_result_example; error_result_example] []
    = inr [(VStr "VERIFIED", 1); (VStr "ERROR", 2)] /\
  counts_total [(VStr "VERIFIED", 1); (VStr "ERROR", 2)] = 3.
Proof.
  split; [reflexivity |].
  exact (count_statuses_total
           [verified_result_example; error_result_example; error_result_example]
           [(VStr "VERIFIED", 1); (VStr "ERROR", 2)] eq_refl).
Defined.

Lemma show_summary_unhashable_status_witness :
  forallb result_ok [verified_result_example] = true /\
  @show_summary scripted
    [verified_result_example; VDict [("status", VList [VStr "VERIFIED"])]] (start [] [])
  = (inl (Exception (PyException "TypeError" "unhashable type: 'list'")), start [] []).
Proof.
  split; [reflexivity |].
  exact (@show_summary_unhashable_status scripted [verified_result_example]
           [("status", VList [VStr "VERIFIED"])] [] (start [] []) eq_refl eq_refl).
Defined.

Lemma main_stops_without_keys_witness :
  main {| OPENAI_API_KEY := Some "sk-test";
          TAVILY_API_KEY := None;
          new_OpenAI := fun _ => scripted_openai;
          new_TavilyClient := fun _ => scripted_tavily |}
    (report_page true) full_script =
  (inl StopException,
   record_event
     (StWarning "Please set up your API keys in the .env file. See README for instructions.")
     (record_event (StError "TAVILY_API_KEY not found in environment variables")
        full_script)) /\
  fst (run_script
         (Some ((None, None), [StError "TAVILY_API_KEY not found in environment variables"]))
         scripted_env (report_page true) full_script) =
  (inl StopException,
   record_event
     (StWarning "Please set up your API keys in the .env file. See README for instructions.")
     (record_event (StError "TAVILY_API_KEY not found in environment variables")
        full_script)).
Proof.
  destruct (@main_stops_without_keys scripted
              {| OPENAI_API_KEY := Some "sk-test";
                 TAVILY_API_KEY := None;
                 new_OpenAI := fun _ => scripted_openai;
                 new_TavilyClient := fun _ => scripted_tavily |}
              (report_page true) full_script eq_refl)
    as (Hmain & kept & Hkept & _ & Hlater).
  split; [exact Hmain |].
  subst kept.
  exact (f_equal fst (Hlater scripted_env (report_page true) full_script)).
Defined.

Lemma main_stops_without_claims_witness :
  fst (@extract_text_from_pdf scripted report_pdf (start [] [])) = inr report_text /\
  fst (extract_claims report_text scripted_openai (start [] [])) = inr [] /\
  exists s' before,
    main scripted_env (report_page true) (start [] []) = (inl StopException, s') /\
    trace s' = (before ++ [StWarning "No verifiable claims found in the document."])%list /\
    filter is_search (trace s') = [].
Proof.
  split; [reflexivity |]. split; [reflexivity |].
  destruct (@main_stops_without_claims scripted scripted_env (report_page true) report_pdf
              "sk-test" "tvly-test" report_text (start [] [])
              eq_refl eq_refl eq_refl eq_refl eq_refl eq_refl ltac:(discriminate) eq_refl)
    as (s' & before & Hrun & Hlast & _ & Hsearch & _).
  exists s', before. split; [exact Hrun |]. split; [exact Hlast | exact Hsearch].
Defined.

Lemma main_stores_results_and_reruns_witness :
  fst (extract_claims report_text scripted_openai full_script) = inr [gdp_claim] /\
  exists s' results,
    main scripted_env (report_page true) full_script = (inl RerunException, s') /\
    verification_results s' = Some results /\
    List.length results = 1%nat.
Proof.
  split; [reflexivity |].
  destruct (@main_stores_results_and_reruns scripted scripted_env (report_page true)
              report_pdf "sk-test" "tvly-test" report_text [gdp_claim] full_script
              eq_refl eq_refl eq_refl eq_refl eq_refl eq_refl ltac:(discriminate)
              eq_refl ltac:(discriminate) eq_refl eq_refl)
    as (s' & results & Hrun & Hstored & Hall & _).
  exists s', results. split; [exact Hrun |]. split; [exact Hstored |].
  symmetry. exact (Forall2_length Hall).
Defined.

Lemma main_crashes_at_preview_witness :
  fst (extract_claims report_text loose_openai loose_start) = inr [VInt 7] /\
  forallb claim_ok [VInt 7] = false /\
  exists e s',
    main loose_env {| uploaded_file := Some report_pdf; verify_button := true |} loose_start
      = (inl (Exception e), s') /\
    filter is_search (trace s') = [] /\
    verification_results s' = None.
Proof.
  split; [reflexivity |]. split; [reflexivity |].
  exact (@main_crashes_at_preview loose loose_env
           {| uploaded_file := Some report_pdf; verify_button := true |} report_pdf
           "sk-test" "tvly-test" report_text [VInt 7] loose_start
           eq_refl eq_refl eq_refl eq_refl eq_refl eq_refl ltac:(discriminate)
           eq_refl eq_refl).
Defined.

Lemma show_results_renders_witness :
  forallb renderable [verified_result_example; error_result_example] = true /\
  exists s',
    @show_results scripted 1 [verified_result_example; error_result_example] (start [] [])
      = (inr tt, s') /\
    trace s' =
      [StMarkdown "#### ✅ Claim 1: VERIFIED";
       StMarkdown "**Claim:** The GDP of Country X was $5 trillion in 2020.";
       StMarkdown "**Type:** Other";
       StMarkdown "**Confidence:** HIGH";
       StMarkdown "**Explanation:** ";
       StMarkdown "---";
       StMarkdown "#### ⚠️ Claim 2: ERROR";
       StMarkdown "**Claim:** The GDP of Country X was $5 trillion in 2020.";
       StMarkdown "**Type:** Other";
       StMarkdown "**Confidence:** LOW";
       StMarkdown "**Explanation:** Error during verification: Connection error.";
       StMarkdown "---"] /\
    world s' = world (start [] []).
Proof.
  split; [reflexivity |].
  destruct (@show_results_renders scripted [verified_result_example; error_result_example]
              1 (start [] []) eq_refl) as (s' & Hrun & Htrace & Hworld & _).
  exists s'. split; [exact Hrun |]. split; [| exact Hworld].
  rewrite Htrace. vm_compute. reflexivity.
Defined.

Lemma show_result_non_string_type_witness :
  fst (@show_result scripted 1 (VDict [("status", VStr "FALSE"); ("type", VNone)])
         (start [] []))
  = inl (Exception (PyException "AttributeError" "'NoneType' object has no attribute 'title'")).
Proof.
  apply (@show_result_non_string_type scripted 1
           [("status", VStr "FALSE"); ("type", VNone)] (start [] []) eq_refl).
  intros t. discriminate.
Defined.

Lemma main_shows_stored_results_witness :
  verification_results rerun_state
    = Some [verified_result_example; error_result_example] /\
  exists s' before,
    main scripted_env (report_page false) rerun_state = (inr tt, s') /\
    trace s' = (before
                ++ [StMarkdown "---"; StHeader "📊 Verification Results"]
                ++ summary_events [verified_result_example; error_result_example]
                ++ [StMarkdown "### Detailed Results"]
                ++ @cards scripted 1 [verified_result_example; error_result_example])%list /\
    filter is_chat (trace s') = [ChatCreate (extraction_request (analyzed_text report_text))] /\
    filter is_search (trace s') = [] /\
    verification_results s' = Some [verified_result_example; error_result_example].
Proof.
  split; [reflexivity |].
  exact (@main_shows_stored_results scripted scripted_env (report_page false) report_pdf
           "sk-test" "tvly-test" report_text [gdp_claim]
           [verified_result_example; error_result_example] rerun_state
           eq_refl eq_refl eq_refl eq_refl eq_refl eq_refl ltac:(discriminate)
           eq_refl ltac:(discriminate) eq_refl eq_refl eq_refl ltac:(discriminate) eq_refl).
Defined.
